(** * AutoSMS browser controller ([static/main.js]): a shallow embedding

    The script is a set of DOM event handlers around four backend
    endpoints.  It is embedded as an event-driven state machine:

    - JSON values, truthiness, string conversion and property access are
      modelled as JavaScript defines them ([JsVal], [truthy], [ToString],
      [get_prop]);
    - every handler is a computation in a state-and-exception monad [M]:
      an exception ends the handler and keeps the writes made so far, as
      a rejected [async] function does;
    - the outcome of each [fetch] is an input of the handler that awaits
      it, and every request issued is appended to the [requests] log;
    - [alert] and [confirm] append to the [dialogs] log, the answer to a
      [confirm] is an input;
    - the interval timer of [pollProgress] is a [Timer] entry which the
      events [Tick] and [Respond] drive. *)

From Stdlib Require Import String Ascii List ZArith Bool Lia DecimalString.
Import ListNotations.
Local Open Scope string_scope.
Set Warnings "-register-all".

(** ** JavaScript values *)

(** The values the script handles all come out of [JSON.parse], plus
    [undefined] for an absent property.  [JNum] stands for an
    integer-valued number of magnitude below 2^53 (phone numbers, counts,
    percentages); [JObj] lists the own properties of an object, the first
    binding of a key being its value. *)
Inductive JsVal : Type :=
| JUndefined
| JNull
| JBool (b : bool)
| JNum (n : Z)
| JStr (s : string)
| JArr (elems : list JsVal)
| JObj (props : list (string * JsVal)).

Inductive JsError : Type := TypeError | SyntaxError | NetworkError.

(** Result of an expression that may throw. *)
Inductive Res (A : Type) : Type :=
| Ok (a : A)
| Throw (e : JsError).
Arguments Ok {A} a.
Arguments Throw {A} e.

Definition res_bind {A B} (r : Res A) (f : A -> Res B) : Res B :=
  match r with
  | Ok a => f a
  | Throw e => Throw e
  end.

Declare Scope res_scope.
Delimit Scope res_scope with res.
Notation "x <- c ;; k" := (res_bind c (fun x => k))
  (at level 61, c at next level, right associativity) : res_scope.

Definition dquote : string := String "034"%char EmptyString.
Definition newline : string := String "010"%char EmptyString.
(** U+2014, as its three UTF-8 bytes. *)
Definition emdash : string :=
  String "226"%char (String "128"%char (String "148"%char EmptyString)).

Definition nat_to_string (n : nat) : string :=
  NilZero.string_of_uint (Nat.to_uint n).

(** [Number.prototype.toString] on an integer. *)
Definition num_to_string (n : Z) : string :=
  NilZero.string_of_int (Z.to_int n).

(** [ToBoolean]: [undefined], [null], [false], [0] and the empty string are
    falsy, objects and arrays are truthy. *)
Definition truthy (v : JsVal) : bool :=
  match v with
  | JUndefined | JNull => false
  | JBool b => b
  | JNum n => negb (n =? 0)%Z
  | JStr s => negb (s =? EmptyString)
  | JArr _ | JObj _ => true
  end.

(** [a || b] *)
Definition js_or (a b : JsVal) : JsVal := if truthy a then a else b.

Fixpoint lookup (k : string) (props : list (string * JsVal)) : option JsVal :=
  match props with
  | [] => None
  | (k', v) :: rest => if k' =? k then Some v else lookup k rest
  end.

Definition has_key (k : string) (props : list (string * JsVal)) : bool :=
  match lookup k props with Some _ => true | None => false end.

(** The abstract operation [ToString], used by template literals, by [+]
    with a string operand and by [Array.prototype.join].  An array joins
    its elements with commas, [undefined] and [null] elements giving the
    empty string.  A plain object gives the text of
    [Object.prototype.toString], unless it has an own [toString] property:
    a parsed value is never callable, and the conversion throws. *)
Fixpoint ToString (v : JsVal) : Res string :=
  match v with
  | JUndefined => Ok "undefined"
  | JNull => Ok "null"
  | JBool true => Ok "true"
  | JBool false => Ok "false"
  | JNum n => Ok (num_to_string n)
  | JStr s => Ok s
  | JArr elems =>
      (fix join (l : list JsVal) : Res string :=
         match l with
         | [] => Ok EmptyString
         | x :: rest =>
             let elem :=
               match x with
               | JUndefined | JNull => Ok EmptyString
               | _ => ToString x
               end in
             match rest with
             | [] => elem
             | _ :: _ =>
                 res_bind elem (fun s =>
                 res_bind (join rest) (fun t => Ok (s ++ "," ++ t)))
             end
         end) elems
  | JObj props =>
      if has_key "toString" props then Throw TypeError
      else Ok "[object Object]"
  end.

(** The method call [v.toString()]. *)
Definition method_toString (v : JsVal) : Res string :=
  match v with
  | JUndefined | JNull => Throw TypeError
  | _ => ToString v
  end.

(** [s + v] and [v + s] for a string [s]. *)
Definition str_plus (s : string) (v : JsVal) : Res string :=
  res_bind (ToString v) (fun t => Ok (s ++ t)).
Definition plus_str (v : JsVal) (s : string) : Res string :=
  res_bind (ToString v) (fun t => Ok (t ++ s)).

(** [v.k] for the property names the script reads ([error], [job_id],
    [preview], [fullname], [phone], [send_job_id], [percent], [status],
    [sent], [total], [failed]): none of them is defined on a built-in
    prototype, so only an object's own property can answer. *)
Definition get_prop (v : JsVal) (k : string) : Res JsVal :=
  match v with
  | JUndefined | JNull => Throw TypeError
  | JObj props =>
      match lookup k props with
      | Some x => Ok x
      | None => Ok JUndefined
      end
  | _ => Ok JUndefined
  end.

(** [v.length] *)
Definition get_length (v : JsVal) : Res JsVal :=
  match v with
  | JUndefined | JNull => Throw TypeError
  | JArr l => Ok (JNum (Z.of_nat (List.length l)))
  | JStr s => Ok (JNum (Z.of_nat (String.length s)))
  | JObj props =>
      match lookup "length" props with
      | Some x => Ok x
      | None => Ok JUndefined
      end
  | _ => Ok JUndefined
  end.

(** [v[i]] for an array index [i]. *)
Definition js_index (v : JsVal) (i : nat) : Res JsVal :=
  match v with
  | JUndefined | JNull => Throw TypeError
  | JArr l => Ok (nth i l JUndefined)
  | JStr s =>
      match String.get i s with
      | Some c => Ok (JStr (String c EmptyString))
      | None => Ok JUndefined
      end
  | JObj props =>
      match lookup (nat_to_string i) props with
      | Some x => Ok x
      | None => Ok JUndefined
      end
  | _ => Ok JUndefined
  end.

(** [s.replace(/c/g, r)] for a one-character pattern and a replacement
    without [$]. *)
Fixpoint replace_all (c : ascii) (r : string) (s : string) : string :=
  match s with
  | EmptyString => EmptyString
  | String a rest =>
      if Ascii.eqb a c then r ++ replace_all c r rest
      else String a (replace_all c r rest)
  end.

Definition escape_text (s : string) : string :=
  replace_all "<"%char "&lt;" (replace_all "&"%char "&amp;" s).

(** [escapeHtml(s)]: the operand of [||] falls back to the empty string,
    [toString] is called on the result, then every ampersand and then
    every less-than sign is replaced by its entity.  The greater-than sign
    and the quotes are left as they are. *)
Definition escapeHtml (s : JsVal) : Res string :=
  res_bind (method_toString (js_or s (JStr EmptyString)))
           (fun t => Ok (escape_text t)).

(** ** Page state *)

(** A row of [#previewTable tbody]: the markup assigned to its
    [innerHTML] and the [checked] flag of the checkbox of its first cell.
    The markup the script writes holds exactly one [input] per row, since
    the two escaped texts contain no less-than sign (lemma
    [escape_text_no_lt]). *)
Record Tr : Type := mkTr {
  tr_innerHTML : string;
  cb_checked : bool
}.

(** An interval created by [setInterval] in [pollProgress].  The handle
    returned by [setInterval] is the position of the entry in [timers].
    [timer_inflight] counts the callbacks suspended at [await fetch]. *)
Record Timer : Type := mkTimer {
  timer_job : JsVal;
  timer_active : bool;
  timer_inflight : nat
}.

Inductive Dialog : Type :=
| Alert (msg : string)
| Confirm (msg : string).

(** The object passed to [JSON.stringify] for [POST /send]. *)
Record SendBody : Type := mkSendBody {
  sb_message : string;
  sb_personalize : bool;
  sb_targets : JsVal
}.

(** A call of [fetch].  [ReqProgress] also records the interval whose
    callback issued it. *)
Inductive Request : Type :=
| ReqUpload (file : string)
| ReqPreview (url : string)
| ReqSend (body : SendBody)
| ReqProgress (timer : nat) (url : string).

(** What a resolved [fetch] gives: [res.ok] and the outcome of
    [res.json()], which rejects when the body is not JSON. *)
Record Response : Type := mkResponse {
  ok : bool;
  json : Res JsVal
}.

Record State : Type := mkState {
  previewJobId : JsVal;
  previewData : JsVal;
  files : list string;
  previewArea_display : string;
  tbody : list Tr;
  messageBox : string;
  personalizeToggle : bool;
  progressContainer_display : string;
  progressFill_width : string;
  progressFill_text : string;
  progressText : string;
  timers : list Timer;
  dialogs : list Dialog;
  requests : list Request
}.

(** The page as loaded: [let previewJobId = null; let previewData = [];]
    and what the document holds (its markup is not part of the script). *)
Definition initial (rows : list Tr) (fs : list string) (msg : string)
    (pers : bool) (d1 d2 w ft t : string) : State :=
  mkState JNull (JArr []) fs d1 rows msg pers d2 w ft t [] [] [].

Definition set_previewJobId (v : JsVal) (st : State) : State :=
  mkState v (previewData st) (files st) (previewArea_display st) (tbody st)
    (messageBox st) (personalizeToggle st) (progressContainer_display st)
    (progressFill_width st) (progressFill_text st) (progressText st)
    (timers st) (dialogs st) (requests st).
Definition set_previewData (v : JsVal) (st : State) : State :=
  mkState (previewJobId st) v (files st) (previewArea_display st) (tbody st)
    (messageBox st) (personalizeToggle st) (progressContainer_display st)
    (progressFill_width st) (progressFill_text st) (progressText st)
    (timers st) (dialogs st) (requests st).
Definition set_files (v : list string) (st : State) : State :=
  mkState (previewJobId st) (previewData st) v (previewArea_display st)
    (tbody st) (messageBox st) (personalizeToggle st)
    (progressContainer_display st) (progressFill_width st)
    (progressFill_text st) (progressText st) (timers st) (dialogs st)
    (requests st).
Definition set_previewArea_display (v : string) (st : State) : State :=
  mkState (previewJobId st) (previewData st) (files st) v (tbody st)
    (messageBox st) (personalizeToggle st) (progressContainer_display st)
    (progressFill_width st) (progressFill_text st) (progressText st)
    (timers st) (dialogs st) (requests st).
Definition set_tbody (v : list Tr) (st : State) : State :=
  mkState (previewJobId st) (previewData st) (files st)
    (previewArea_display st) v (messageBox st) (personalizeToggle st)
    (progressContainer_display st) (progressFill_width st)
    (progressFill_text st) (progressText st) (timers st) (dialogs st)
    (requests st).
Definition set_messageBox (v : string) (st : State) : State :=
  mkState (previewJobId st) (previewData st) (files st)
    (previewArea_display st) (tbody st) v (personalizeToggle st)
    (progressContainer_display st) (progressFill_width st)
    (progressFill_text st) (progressText st) (timers st) (dialogs st)
    (requests st).
Definition set_personalizeToggle (v : bool) (st : State) : State :=
  mkState (previewJobId st) (previewData st) (files st)
    (previewArea_display st) (tbody st) (messageBox st) v
    (progressContainer_display st) (progressFill_width st)
    (progressFill_text st) (progressText st) (timers st) (dialogs st)
    (requests st).
Definition set_progressContainer_display (v : string) (st : State) : State :=
  mkState (previewJobId st) (previewData st) (files st)
    (previewArea_display st) (tbody st) (messageBox st)
    (personalizeToggle st) v (progressFill_width st)
    (progressFill_text st) (progressText st) (timers st) (dialogs st)
    (requests st).
Definition set_progressFill_width (v : string) (st : State) : State :=
  mkState (previewJobId st) (previewData st) (files st)
    (previewArea_display st) (tbody st) (messageBox st)
    (personalizeToggle st) (progressContainer_display st) v
    (progressFill_text st) (progressText st) (timers st) (dialogs st)
    (requests st).
Definition set_progressFill_text (v : string) (st : State) : State :=
  mkState (previewJobId st) (previewData st) (files st)
    (previewArea_display st) (tbody st) (messageBox st)
    (personalizeToggle st) (progressContainer_display st)
    (progressFill_width st) v (progressText st) (timers st) (dialogs st)
    (requests st).
Definition set_progressText (v : string) (st : State) : State :=
  mkState (previewJobId st) (previewData st) (files st)
    (previewArea_display st) (tbody st) (messageBox st)
    (personalizeToggle st) (progressContainer_display st)
    (progressFill_width st) (progressFill_text st) v (timers st)
    (dialogs st) (requests st).
Definition set_timers (v : list Timer) (st : State) : State :=
  mkState (previewJobId st) (previewData st) (files st)
    (previewArea_display st) (tbody st) (messageBox st)
    (personalizeToggle st) (progressContainer_display st)
    (progressFill_width st) (progressFill_text st) (progressText st) v
    (dialogs st) (requests st).
Definition set_dialogs (v : list Dialog) (st : State) : State :=
  mkState (previewJobId st) (previewData st) (files st)
    (previewArea_display st) (tbody st) (messageBox st)
    (personalizeToggle st) (progressContainer_display st)
    (progressFill_width st) (progressFill_text st) (progressText st)
    (timers st) v (requests st).
Definition set_requests (v : list Request) (st : State) : State :=
  mkState (previewJobId st) (previewData st) (files st)
    (previewArea_display st) (tbody st) (messageBox st)
    (personalizeToggle st) (progressContainer_display st)
    (progressFill_width st) (progressFill_text st) (progressText st)
    (timers st) (dialogs st) v.

(** ** The handler monad *)

(** A handler reads and writes the page and may throw.  The state it
    returns is the page at the point where it ended, normally or not. *)
Definition M (A : Type) : Type := State -> State * Res A.

Definition ret {A} (a : A) : M A := fun st => (st, Ok a).
Definition bind {A B} (c : M A) (f : A -> M B) : M B :=
  fun st =>
    match c st with
    | (st', Ok a) => f a st'
    | (st', Throw e) => (st', Throw e)
    end.
(** An expression that may throw, evaluated inside a handler. *)
Definition lift {A} (r : Res A) : M A := fun st => (st, r).
Definition gets {A} (f : State -> A) : M A := fun st => (st, Ok (f st)).
Definition modify (f : State -> State) : M unit := fun st => (f st, Ok tt).

Declare Scope handler_scope.
Delimit Scope handler_scope with handler.
Notation "x <- c ;; k" := (bind c (fun x => k))
  (at level 61, c at next level, right associativity) : handler_scope.
Notation "c ;; k" := (bind c (fun _ => k))
  (at level 61, right associativity) : handler_scope.
Local Open Scope handler_scope.

Definition alert (msg : string) : M unit :=
  modify (fun st => set_dialogs (dialogs st ++ [Alert msg]) st).

(** [confirm(msg)]: the dialog is shown and the user's [answer] returned. *)
Definition confirm (msg : string) (answer : bool) : M bool :=
  modify (fun st => set_dialogs (dialogs st ++ [Confirm msg]) st) ;;
  ret answer.

(** [await fetch(..)]: the request leaves, then the handler resumes with
    the [outcome] (a rejected promise throws). *)
Definition fetch (req : Request) (outcome : Res Response) : M Response :=
  modify (fun st => set_requests (requests st ++ [req]) st) ;;
  lift outcome.

(** ** Upload and preview *)

(** The markup of one row (lines 30-32): the template literal with the
    row index and the two escaped texts filled in. *)
Definition row_markup (idx : nat) (fullname phone : string) : string :=
  "<td><input type=" ++ dquote ++ "checkbox" ++ dquote ++ " data-index="
    ++ dquote ++ nat_to_string idx ++ dquote ++ " /></td>" ++ newline
    ++ "                    <td>" ++ fullname ++ "</td>" ++ newline
    ++ "                    <td>" ++ phone ++ "</td>".

Definition render_row (idx : nat) (r : JsVal) : Res string :=
  res_bind (get_prop r "fullname") (fun f =>
  res_bind (escapeHtml f) (fun ef =>
  res_bind (get_prop r "phone") (fun p =>
  res_bind (escapeHtml p) (fun ep =>
  Ok (row_markup idx ef ep))))).

(** The callback of [data.forEach]: a [tr] is created, filled and
    appended; its checkbox starts unchecked. *)
Definition append_row (idx : nat) (r : JsVal) : M unit :=
  html <- lift (render_row idx r) ;;
  modify (fun st => set_tbody (tbody st ++ [mkTr html false]) st).

Fixpoint forEach_rows (idx : nat) (data : list JsVal) : M unit :=
  match data with
  | [] => ret tt
  | r :: rest => append_row idx r ;; forEach_rows (S idx) rest
  end.

(** [populatePreviewTable(data)].  Only an array has a callable
    [forEach]; for any other value the call throws after the table body
    has been emptied. *)
Definition populatePreviewTable (data : JsVal) : M unit :=
  modify (set_previewArea_display "block") ;;
  modify (set_tbody []) ;;
  match data with
  | JArr rows => forEach_rows 0 rows
  | _ => lift (Throw TypeError)
  end.

(** The click handler of [uploadBtn].  [up] and [pv] are the outcomes of
    the two fetches it awaits. *)
Definition uploadBtn_click (up pv : Res Response) : M unit :=
  fs <- gets files ;;
  match fs with
  | [] => alert "Pick an Excel file first"
  | file :: _ =>
      res <- fetch (ReqUpload file) up ;;
      j <- lift (json res) ;;
      if negb (ok res) then
        e <- lift (get_prop j "error") ;;
        msg <- lift (str_plus "Upload error: " (js_or e (JStr "unknown"))) ;;
        alert msg
      else
        id <- lift (get_prop j "job_id") ;;
        modify (set_previewJobId id) ;;
        jid <- gets previewJobId ;;
        url <- lift (str_plus "/preview/" jid) ;;
        res2 <- fetch (ReqPreview url) pv ;;
        prev <- lift (json res2) ;;
        p <- lift (get_prop prev "preview") ;;
        modify (set_previewData (js_or p (JArr []))) ;;
        data <- gets previewData ;;
        populatePreviewTable data
  end.

(** ** Selection *)

Definition set_all_checked (b : bool) (rows : list Tr) : list Tr :=
  map (fun tr => mkTr (tr_innerHTML tr) b) rows.

Definition selectAllBtn_click : M unit :=
  modify (fun st => set_tbody (set_all_checked true (tbody st)) st).
Definition deselectAllBtn_click : M unit :=
  modify (fun st => set_tbody (set_all_checked false (tbody st)) st).

Fixpoint update_nth {A} (i : nat) (f : A -> A) (l : list A) : list A :=
  match l, i with
  | [], _ => []
  | x :: rest, O => f x :: rest
  | x :: rest, S i' => x :: update_nth i' f rest
  end.

(** The user clicks the checkbox of row [i]. *)
Definition toggle_checkbox (i : nat) : M unit :=
  modify (fun st =>
    set_tbody
      (update_nth i (fun tr => mkTr (tr_innerHTML tr) (negb (cb_checked tr)))
         (tbody st)) st).

(** The checkboxes of the table body in document order. *)
Definition boxes (st : State) : list bool := map cb_checked (tbody st).

(** [boxes.map((b,i) => b.checked ? previewData[i] : null)], from index
    [i] on. *)
Fixpoint map_boxes (data : JsVal) (i : nat) (bs : list bool)
    : Res (list JsVal) :=
  match bs with
  | [] => Ok []
  | b :: rest =>
      res_bind (if b then js_index data i else Ok JNull) (fun x =>
      res_bind (map_boxes data (S i) rest) (fun xs => Ok (x :: xs)))
  end.

(** [gatherTargetsFromSelection(all)] *)
Definition gatherTargetsFromSelection (all : bool) : M JsVal :=
  if all then gets previewData
  else
    bs <- gets boxes ;;
    data <- gets previewData ;;
    mapped <- lift (map_boxes data 0 bs) ;;
    ret (JArr (filter truthy mapped)).

(** ** Sending and polling *)

(** [pollProgress(jobId)]: registers the interval.  Nothing is fetched
    before the first tick. *)
Definition pollProgress (jobId : JsVal) : M unit :=
  modify (fun st => set_timers (timers st ++ [mkTimer jobId true 0]) st).

Definition clearInterval (id : nat) : M unit :=
  modify (fun st =>
    set_timers
      (update_nth id
         (fun t => mkTimer (timer_job t) false (timer_inflight t))
         (timers st)) st).

(** [startSend(targets, personalize)]; [send] is the outcome of the fetch
    of [/send]. *)
Definition startSend (targets : JsVal) (personalize : bool)
    (send : Res Response) : M unit :=
  message <- gets messageBox ;;
  if message =? EmptyString then alert "Please write a message"
  else
    res <- fetch (ReqSend (mkSendBody message personalize targets)) send ;;
    j <- lift (json res) ;;
    if negb (ok res) then
      e <- lift (get_prop j "error") ;;
      msg <- lift (str_plus "Send error: " (js_or e (JStr "unknown"))) ;;
      alert msg
    else
      send_job_id <- lift (get_prop j "send_job_id") ;;
      modify (set_progressContainer_display "block") ;;
      pollProgress send_job_id.

(** [v === s] for a string literal [s]. *)
Definition strict_eq_str (v : JsVal) (s : string) : bool :=
  match v with
  | JStr t => t =? s
  | _ => false
  end.

(** The interval of [id] fires: if it has not been cleared, its callback
    starts and fetches. *)
Definition tick (id : nat) : M unit :=
  ts <- gets timers ;;
  match nth_error ts id with
  | Some t =>
      if timer_active t then
        url <- lift (str_plus "/progress/" (timer_job t)) ;;
        modify (fun st =>
          set_requests (requests st ++ [ReqProgress id url]) st) ;;
        modify (fun st =>
          set_timers
            (update_nth id
               (fun t => mkTimer (timer_job t) (timer_active t)
                           (S (timer_inflight t)))
               (timers st)) st)
      else ret tt
  | None => ret tt
  end.

(** Lines 82-89: the callback resumes with the [outcome] of its fetch. *)
Definition progress_callback (id : nat) (outcome : Res Response) : M unit :=
  res <- lift outcome ;;
  j <- lift (json res) ;;
  if negb (ok res) then
    modify (set_progressText "Error fetching progress") ;;
    clearInterval id
  else
    p <- lift (get_prop j "percent") ;;
    w <- lift (plus_str p "%") ;;
    modify (set_progressFill_width w) ;;
    p' <- lift (get_prop j "percent") ;;
    w' <- lift (plus_str p' "%") ;;
    modify (set_progressFill_text w') ;;
    status <- lift (get_prop j "status") ;;
    s1 <- lift (ToString status) ;;
    sent <- lift (get_prop j "sent") ;;
    s2 <- lift (ToString sent) ;;
    total <- lift (get_prop j "total") ;;
    s3 <- lift (ToString total) ;;
    failed <- lift (get_prop j "failed") ;;
    s4 <- lift (ToString failed) ;;
    modify (set_progressText
      ("Status: " ++ s1 ++ " " ++ emdash ++ " Sent: " ++ s2 ++ " / " ++ s3
         ++ " " ++ emdash ++ " Failed: " ++ s4)) ;;
    st1 <- lift (get_prop j "status") ;;
    if strict_eq_str st1 "completed" then clearInterval id
    else
      st2 <- lift (get_prop j "status") ;;
      if strict_eq_str st2 "failed" then clearInterval id else ret tt.

(** A fetch issued by the interval [id] settles.  The event can only
    happen while a callback of [id] is waiting. *)
Definition respond (id : nat) (outcome : Res Response) : M unit :=
  ts <- gets timers ;;
  match nth_error ts id with
  | Some t =>
      match timer_inflight t with
      | O => ret tt
      | S n =>
          modify (fun st =>
            set_timers
              (update_nth id
                 (fun t => mkTimer (timer_job t) (timer_active t) n)
                 (timers st)) st) ;;
          progress_callback id outcome
      end
  | None => ret tt
  end.

(** The click handler of [sendSelectedBtn]. *)
Definition sendSelectedBtn_click (answer : bool) (send : Res Response)
    : M unit :=
  targets <- gatherTargetsFromSelection false ;;
  len <- lift (get_length targets) ;;
  proceed <- (if negb (truthy len)
              then confirm "No recipients selected. Send to all instead?"
                     answer
              else ret true) ;;
  if negb proceed then ret tt
  else
    personalize <- gets personalizeToggle ;;
    len' <- lift (get_length targets) ;;
    data <- gets previewData ;;
    startSend (if truthy len' then targets else data) personalize send.

(** The click handler of [sendAllBtn]. *)
Definition sendAllBtn_click (send : Res Response) : M unit :=
  personalize <- gets personalizeToggle ;;
  data <- gets previewData ;;
  startSend data personalize send.

(** ** Events *)

(** What can happen to the page: the user acts on a control, an interval
    fires, a progress fetch settles.  A click handler runs to its end
    before the next event (section 5 of the specification: no two uploads
    or sends are in flight together). *)
Inductive Event : Type :=
| ChooseFiles (fs : list string)
| TypeMessage (msg : string)
| SetPersonalize (b : bool)
| ToggleCheckbox (i : nat)
| UploadClick (up pv : Res Response)
| SelectAllClick
| DeselectAllClick
| SendSelectedClick (answer : bool) (send : Res Response)
| SendAllClick (send : Res Response)
| Tick (id : nat)
| Respond (id : nat) (outcome : Res Response).

Definition handler (ev : Event) : M unit :=
  match ev with
  | ChooseFiles fs => modify (set_files fs)
  | TypeMessage msg => modify (set_messageBox msg)
  | SetPersonalize b => modify (set_personalizeToggle b)
  | ToggleCheckbox i => toggle_checkbox i
  | UploadClick up pv => uploadBtn_click up pv
  | SelectAllClick => selectAllBtn_click
  | DeselectAllClick => deselectAllBtn_click
  | SendSelectedClick answer send => sendSelectedBtn_click answer send
  | SendAllClick send => sendAllBtn_click send
  | Tick id => tick id
  | Respond id outcome => respond id outcome
  end.

Definition step (ev : Event) (st : State) : State := fst (handler ev st).

Definition run (evs : list Event) (st : State) : State :=
  fold_left (fun s ev => step ev s) evs st.

(** ** Notions used by the statements *)

(** Values that are neither arrays nor objects. *)
Definition is_scalar (v : JsVal) : bool :=
  match v with
  | JArr _ | JObj _ => false
  | _ => true
  end.

(** No object met by [ToString] has an own [toString] property. *)
Fixpoint plain (v : JsVal) : bool :=
  match v with
  | JArr elems =>
      (fix all (l : list JsVal) : bool :=
         match l with
         | [] => true
         | x :: rest => plain x && all rest
         end) elems
  | JObj props => negb (has_key "toString" props)
  | _ => true
  end.

(** The value of property [k], [undefined] when there is none. *)
Definition field (k : string) (v : JsVal) : JsVal :=
  match v with
  | JObj props =>
      match lookup k props with
      | Some x => x
      | None => JUndefined
      end
  | _ => JUndefined
  end.

(** A preview row of the data model: an object whose [fullname] and
    [phone], when present, are plain values (strings, numbers, ...). *)
Definition is_preview_row (r : JsVal) : bool :=
  match r with
  | JObj _ => plain (field "fullname" r) && plain (field "phone" r)
  | _ => false
  end.

(** A progress state of the data model: an object whose displayed fields
    are plain values. *)
Definition is_progress_state (j : JsVal) : bool :=
  match j with
  | JObj _ =>
      plain (field "percent" j) && plain (field "status" j)
      && plain (field "sent" j) && plain (field "total" j)
      && plain (field "failed" j)
  | _ => false
  end.

Definition is_terminal (j : JsVal) : bool :=
  strict_eq_str (field "status" j) "completed"
  || strict_eq_str (field "status" j) "failed".

(** The rows whose checkbox is checked, in order: the words of the
    specification for [resolveTargets(false)]. *)
Fixpoint selected_rows (rows : list JsVal) (bs : list bool) : list JsVal :=
  match rows, bs with
  | r :: rows', b :: bs' =>
      if b then r :: selected_rows rows' bs' else selected_rows rows' bs'
  | _, _ => []
  end.

(** [l1] is [l2] with some elements left out. *)
Inductive Subseq {A : Type} : list A -> list A -> Prop :=
| Subseq_nil : Subseq [] []
| Subseq_skip : forall x l1 l2, Subseq l1 l2 -> Subseq l1 (x :: l2)
| Subseq_keep : forall x l1 l2, Subseq l1 l2 -> Subseq (x :: l1) (x :: l2).

Definition is_progress_of (id : nat) (req : Request) : bool :=
  match req with
  | ReqProgress t _ => Nat.eqb t id
  | _ => false
  end.

(** The progress requests issued so far by the interval [id]. *)
Definition progress_requests (id : nat) (st : State) : list Request :=
  filter (is_progress_of id) (requests st).

(** [clearInterval] has been called on [id]. *)
Definition cleared (id : nat) (st : State) : bool :=
  match nth_error (timers st) id with
  | Some t => negb (timer_active t)
  | None => false
  end.

(** A callback of the interval [id] is waiting for its fetch. *)
Definition waiting (id : nat) (st : State) : bool :=
  match nth_error (timers st) id with
  | Some t => negb (Nat.eqb (timer_inflight t) 0)
  | None => false
  end.

Fixpoint occurs (c : ascii) (s : string) : bool :=
  match s with
  | EmptyString => false
  | String a rest => Ascii.eqb a c || occurs c rest
  end.

(** The reading of [escapeHtml] that sends exactly [undefined] and [null]
    to the empty string and every other value through [toString]. *)
Definition escapeHtml_nullish_only (v : JsVal) : Prop :=
  exists s, escapeHtml v = Ok s /\
    match v with
    | JUndefined | JNull => s = EmptyString
    | _ => exists t, method_toString v = Ok t /\ s = escape_text t
    end.

(** The text shown for a field: nothing for a falsy value, its string
    form otherwise. *)
Definition cell_text (v : JsVal) : string :=
  if truthy v then
    match ToString v with
    | Ok t => t
    | Throw _ => EmptyString
    end
  else EmptyString.

(** The table row expected for the preview row [r] at position [idx]. *)
Definition rendered_row (idx : nat) (r : JsVal) : Tr :=
  mkTr (row_markup idx (escape_text (cell_text (field "fullname" r)))
                       (escape_text (cell_text (field "phone" r))))
       false.

Fixpoint rendered_rows (idx : nat) (rows : list JsVal) : list Tr :=
  match rows with
  | [] => []
  | r :: rest => rendered_row idx r :: rendered_rows (S idx) rest
  end.

(** What [map_boxes] computes when the preview data is the array
    [rows]: an absent element reads as [undefined]. *)
Fixpoint checked_or_null (rows : list JsVal) (i : nat) (bs : list bool)
    : list JsVal :=
  match bs with
  | [] => []
  | b :: rest =>
      (if b then nth i rows JUndefined else JNull)
        :: checked_or_null rows (S i) rest
  end.

(** A handler never leaves the relation [R] between the page before and
    the page after, however it ends. *)
Definition stable (R : State -> State -> Prop) {A} (c : M A) : Prop :=
  forall st, R st (fst (c st)).

(** Once the interval [id] is cleared it stays cleared, and the progress
    requests of [id] are the same after as before. *)
Definition quiet (id : nat) (st st' : State) : Prop :=
  cleared id st = true ->
  cleared id st' = true
  /\ progress_requests id st' = progress_requests id st.

(** The preview data never becomes falsy: it starts as an empty array
    and line 20 falls back to one. *)
Definition keeps_data (st st' : State) : Prop :=
  truthy (previewData st) = true -> truthy (previewData st') = true.

(** A well-founded induction principle that reaches inside arrays and
    objects. *)
Section JsVal_induction.
Variable P : JsVal -> Prop.
Hypothesis P_undefined : P JUndefined.
Hypothesis P_null : P JNull.
Hypothesis P_bool : forall b, P (JBool b).
Hypothesis P_num : forall n, P (JNum n).
Hypothesis P_str : forall s, P (JStr s).
Hypothesis P_arr : forall l, Forall P l -> P (JArr l).
Hypothesis P_obj :
  forall props, Forall (fun kv => P (snd kv)) props -> P (JObj props).

Fixpoint JsVal_deep_ind (v : JsVal) : P v :=
  match v with
  | JUndefined => P_undefined
  | JNull => P_null
  | JBool b => P_bool b
  | JNum n => P_num n
  | JStr s => P_str s
  | JArr l =>
      P_arr l
        ((fix go (l : list JsVal) : Forall P l :=
            match l with
            | [] => Forall_nil P
            | x :: rest => Forall_cons x (JsVal_deep_ind x) (go rest)
            end) l)
  | JObj props =>
      P_obj props
        ((fix go (ps : list (string * JsVal))
            : Forall (fun kv => P (snd kv)) ps :=
            match ps with
            | [] => Forall_nil _
            | kv :: rest =>
                Forall_cons kv (JsVal_deep_ind (snd kv)) (go rest)
            end) props)
  end.
End JsVal_induction.

(** ** Sample pages and responses *)

Definition page0 : State :=
  initial [] ["contacts.xlsx"] "Hello" false "none" "none" "0%" "0%"
    EmptyString.

Definition upload_ok_response : Response :=
  mkResponse true (Ok (JObj [("job_id", JStr "j1")])).

Definition script_preview : Response :=
  mkResponse true
    (Ok (JObj [("preview",
           JArr [JObj [("fullname", JStr "<script>"); ("phone", JStr "555")]])])).

Definition two_row_preview : Response :=
  mkResponse true
    (Ok (JObj [("preview",
           JArr [JObj [("fullname", JStr "<script>"); ("phone", JStr "555")];
                 JObj [("fullname", JStr "A&B"); ("phone", JNum 7)]])])).

Definition three_row_preview : Response :=
  mkResponse true
    (Ok (JObj [("preview",
           JArr [JObj [("fullname", JStr "Ann"); ("phone", JStr "1")];
                 JObj [("fullname", JStr "Bob"); ("phone", JStr "2")];
                 JObj [("fullname", JStr "Cy"); ("phone", JStr "3")]])])).

(** Rows 0 and 2 of a three-row preview are checked. *)
Definition page_0_2_checked : State :=
  run [UploadClick (Ok upload_ok_response) (Ok three_row_preview);
       ToggleCheckbox 0; ToggleCheckbox 2] page0.

Definition no_message_notice : Dialog := Alert "Please write a message".
Definition send_all_question : Dialog :=
  Confirm "No recipients selected. Send to all instead?".

(** What [startSend] adds to the request log. *)
Definition send_requests (st : State) (pers : bool) (targets : JsVal)
    : list Request :=
  if messageBox st =? EmptyString then []
  else [ReqSend (mkSendBody (messageBox st) pers targets)].

(** A page with three rows, rows 0 and 2 checked, and an empty message. *)
Definition page_no_message : State :=
  step (TypeMessage EmptyString) page_0_2_checked.

(** A page with three rows, none checked, and an empty message. *)
Definition page_no_message_none_checked : State :=
  step (TypeMessage EmptyString)
    (run [UploadClick (Ok upload_ok_response) (Ok three_row_preview)] page0).

(** Three rows, none checked, a message typed. *)
Definition page_none_checked : State :=
  run [UploadClick (Ok upload_ok_response) (Ok three_row_preview)] page0.

Definition send_ok_response : Response :=
  mkResponse true (Ok (JObj [("send_job_id", JStr "s1")])).

(** A non-success response whose body is not JSON, as an error page is. *)
Definition error_page : Response := mkResponse false (Throw SyntaxError).

Definition upload_refused : Response :=
  mkResponse false (Ok (JObj [("error", JStr "No file part")])).

Definition progress_response (status : string) (percent sent failed total : Z)
    : Response :=
  mkResponse true
    (Ok (JObj [("status", JStr status); ("percent", JNum percent);
               ("sent", JNum sent); ("failed", JNum failed);
               ("total", JNum total)])).

(** A send job has been started from a three-row preview. *)
Definition page_sending : State :=
  step (SendAllClick (Ok send_ok_response)) page_none_checked.

(** The first callback of its interval is waiting for [/progress/s1]. *)
Definition page_polling : State := step (Tick 0) page_sending.

Definition progress_refused : Response :=
  mkResponse false (Ok (JObj [("error", JStr "unknown job")])).

(** The responses pending, running at 40 and running at 80 have been
    received one per tick, and the fourth callback is waiting. *)
Definition page_before_completed : State :=
  run [Tick 0; Respond 0 (Ok (progress_response "pending" 0 0 0 3));
       Tick 0; Respond 0 (Ok (progress_response "running" 40 1 0 3));
       Tick 0; Respond 0 (Ok (progress_response "running" 80 2 0 3));
       Tick 0] page_sending.

(** ** Notions used by the further properties *)

Fixpoint count_char (c : ascii) (s : string) : nat :=
  match s with
  | EmptyString => 0
  | String a rest => (if Ascii.eqb a c then 1 else 0) + count_char c rest
  end.

(** Reads the two entities of [escape_text] back.  It is not part of the
    script: it serves to show that escaping loses nothing. *)
Fixpoint unescape_text (s : string) : string :=
  match s with
  | EmptyString => EmptyString
  | String c rest =>
      if Ascii.eqb c "&"%char then
        match rest with
        | String c1 (String c2 (String c3 rest3)) =>
            if Ascii.eqb c1 "l"%char && Ascii.eqb c2 "t"%char
               && Ascii.eqb c3 ";"%char
            then String "<"%char (unescape_text rest3)
            else
              match rest3 with
              | String c4 rest4 =>
                  if Ascii.eqb c1 "a"%char && Ascii.eqb c2 "m"%char
                     && Ascii.eqb c3 "p"%char && Ascii.eqb c4 ";"%char
                  then String "&"%char (unescape_text rest4)
                  else String c (unescape_text rest)
              | EmptyString => String c (unescape_text rest)
              end
        | _ => String c (unescape_text rest)
        end
      else String c (unescape_text rest)
  end.

(** The markups [html] are those of the first rows of [rows], rendered
    with the indices from [idx] on. *)
Fixpoint markup_matches (idx : nat) (rows : list JsVal) (html : list string)
    : Prop :=
  match html, rows with
  | [], _ => True
  | h :: hs, r :: rs => render_row idx r = Ok h /\ markup_matches (S idx) rs hs
  | _ :: _, [] => False
  end.

(** Every table row shows the preview row at its own position; there is
    no table row when the preview data is not an array. *)
Definition table_matches (st : State) : Prop :=
  match previewData st with
  | JArr rows => markup_matches 0 rows (map tr_innerHTML (tbody st))
  | _ => tbody st = []
  end.

(** The preview and the markup of the table are the same in both pages. *)
Definition same_preview (st st' : State) : Prop :=
  previewData st' = previewData st
  /\ previewJobId st' = previewJobId st
  /\ map tr_innerHTML (tbody st') = map tr_innerHTML (tbody st).

(** Neither the polling state nor the progress display differs. *)
Definition same_progress (st st' : State) : Prop :=
  timers st' = timers st
  /\ progressContainer_display st' = progressContainer_display st
  /\ progressFill_width st' = progressFill_width st
  /\ progressFill_text st' = progressFill_text st
  /\ progressText st' = progressText st.

Definition is_upload (ev : Event) : bool :=
  match ev with
  | UploadClick _ _ => true
  | _ => false
  end.

Definition is_poll (ev : Event) : bool :=
  match ev with
  | Tick _ | Respond _ _ => true
  | _ => false
  end.

Definition is_send (ev : Event) : bool :=
  match ev with
  | SendSelectedClick _ _ | SendAllClick _ => true
  | _ => false
  end.

(** [Array.prototype.join] as [ToString] has it, on its own. *)
Definition elem_string (x : JsVal) : Res string :=
  match x with
  | JUndefined | JNull => Ok EmptyString
  | _ => ToString x
  end.

Fixpoint join_elems (l : list JsVal) : Res string :=
  match l with
  | [] => Ok EmptyString
  | x :: rest =>
      match rest with
      | [] => elem_string x
      | _ :: _ =>
          res_bind (elem_string x) (fun s =>
          res_bind (join_elems rest) (fun t => Ok (s ++ "," ++ t)))
      end
  end.

(** What the user enters and sees outside the progress area is the same
    in both pages. *)
Definition same_controls (st st' : State) : Prop :=
  tbody st' = tbody st
  /\ dialogs st' = dialogs st
  /\ messageBox st' = messageBox st
  /\ personalizeToggle st' = personalizeToggle st
  /\ files st' = files st
  /\ previewArea_display st' = previewArea_display st.

Definition upload_second_job : Response :=
  mkResponse true (Ok (JObj [("job_id", JStr "j2")])).

Definition preview_not_found : Response :=
  mkResponse false (Ok (JObj [("error", JStr "no such job")])).

Definition send_refused : Response :=
  mkResponse false (Ok (JObj [("error", JStr "No targets")])).

Definition send_ok_without_id : Response := mkResponse true (Ok (JObj [])).

(** * Properties *)

(** ** Values and escaping *)

Lemma occurs_app c s t : occurs c (s ++ t) = occurs c s || occurs c t.
Proof.
  induction s as [|a s IH]; simpl; [reflexivity|].
  rewrite IH. now rewrite orb_assoc.
Qed.

Lemma replace_all_removes c r s :
  occurs c r = false -> occurs c (replace_all c r s) = false.
Proof.
  intros Hr. induction s as [|a s IH]; simpl; [reflexivity|].
  destruct (Ascii.eqb a c) eqn:E.
  - rewrite occurs_app, Hr, IH. reflexivity.
  - simpl. rewrite E, IH. reflexivity.
Qed.

(** No less-than sign survives the escaping: the text cannot open a tag. *)
Lemma escape_text_no_lt s : occurs "<"%char (escape_text s) = false.
Proof. unfold escape_text. now apply replace_all_removes. Qed.

Lemma plain_ToString v : plain v = true -> exists s, ToString v = Ok s.
Proof.
  induction v as [| |b|n|s|l IH|props _] using JsVal_deep_ind;
    simpl; intros Hp; eauto.
  - destruct b; eauto.
  - induction IH as [|x rest Hx _ IHrest]; [eauto|].
    apply andb_prop in Hp. destruct Hp as [Hpx Hprest].
    destruct (IHrest Hprest) as [t Ht].
    assert (He : exists e,
      match x with
      | JUndefined | JNull => Ok EmptyString
      | _ => ToString x
      end = Ok e).
    { destruct (Hx Hpx) as [e He]. destruct x; eauto. }
    destruct He as [e He]. rewrite He.
    destruct rest; [eauto|].
    cbn [res_bind]. rewrite Ht. cbn [res_bind]. eauto.
  - destruct (has_key "toString" props); [discriminate|eauto].
Qed.

Lemma scalar_plain v : is_scalar v = true -> plain v = true.
Proof. destruct v; simpl; congruence. Qed.

Lemma truthy_method_toString v :
  truthy v = true -> method_toString v = ToString v.
Proof. destruct v; simpl; congruence. Qed.

(** [escapeHtml] by cases on the truthiness of its argument. *)
Lemma escapeHtml_cases v :
  escapeHtml v =
    if truthy v
    then res_bind (method_toString v) (fun t => Ok (escape_text t))
    else Ok EmptyString.
Proof.
  unfold escapeHtml, js_or. destruct (truthy v); reflexivity.
Qed.

Lemma escapeHtml_plain v : plain v = true -> exists s, escapeHtml v = Ok s.
Proof.
  intros Hp. rewrite escapeHtml_cases.
  destruct (truthy v) eqn:Ht; [|eauto].
  rewrite (truthy_method_toString _ Ht).
  destruct (plain_ToString _ Hp) as [t ->]. simpl. eauto.
Qed.

Lemma escapeHtml_no_lt v s : escapeHtml v = Ok s -> occurs "<"%char s = false.
Proof.
  unfold escapeHtml.
  destruct (method_toString _); simpl; [|discriminate].
  intros [= <-]. apply escape_text_no_lt.
Qed.

Lemma escapeHtml_cell_text v :
  plain v = true -> escapeHtml v = Ok (escape_text (cell_text v)).
Proof.
  intros Hp. rewrite escapeHtml_cases. unfold cell_text.
  destruct (truthy v) eqn:Ht; [|reflexivity].
  rewrite (truthy_method_toString _ Ht).
  destruct (plain_ToString _ Hp) as [t ->]. reflexivity.
Qed.

Lemma get_prop_obj k props : get_prop (JObj props) k = Ok (field k (JObj props)).
Proof. simpl. destruct (lookup k props); reflexivity. Qed.

(** ** Rendering the preview *)

(** Unfolds the plumbing of the handler monad. *)
Ltac run_handler :=
  cbv [bind ret lift gets modify alert confirm fetch];
  cbv beta iota zeta.

Lemma render_row_preview idx r :
  is_preview_row r = true ->
  render_row idx r = Ok (tr_innerHTML (rendered_row idx r)).
Proof.
  destruct r as [| | | | | |props]; try discriminate.
  intros H. apply andb_prop in H. destruct H as [Hf Hp].
  unfold render_row. rewrite !get_prop_obj. cbn [res_bind].
  rewrite (escapeHtml_cell_text _ Hf). cbn [res_bind].
  rewrite (escapeHtml_cell_text _ Hp). reflexivity.
Qed.

Lemma set_tbody_same st : set_tbody (tbody st) st = st.
Proof. destruct st; reflexivity. Qed.

Lemma forEach_rows_preview rows :
  Forall (fun r => is_preview_row r = true) rows ->
  forall idx st,
    forEach_rows idx rows st
    = (set_tbody (tbody st ++ rendered_rows idx rows) st, Ok tt).
Proof.
  induction 1 as [|r rest Hr _ IH]; intros idx st; simpl.
  - rewrite app_nil_r, set_tbody_same. reflexivity.
  - unfold append_row. run_handler.
    rewrite (render_row_preview idx r Hr). run_handler. rewrite IH.
    destruct st; simpl. rewrite <- app_assoc. reflexivity.
Qed.

Lemma populatePreviewTable_preview rows st :
  Forall (fun r => is_preview_row r = true) rows ->
  populatePreviewTable (JArr rows) st
  = (set_tbody (rendered_rows 0 rows) (set_previewArea_display "block" st),
     Ok tt).
Proof.
  intros H. unfold populatePreviewTable. run_handler.
  rewrite (forEach_rows_preview rows H). destruct st; reflexivity.
Qed.

Lemma rendered_rows_length rows : forall idx,
  List.length (rendered_rows idx rows) = List.length rows.
Proof. induction rows; simpl; intros; [reflexivity | now rewrite IHrows]. Qed.

Lemma rendered_rows_nth rows : forall idx i r,
  nth_error rows i = Some r ->
  nth_error (rendered_rows idx rows) i = Some (rendered_row (idx + i) r).
Proof.
  induction rows as [|x rest IH]; intros idx [|i] r; simpl; try discriminate.
  - intros [= ->]. now rewrite Nat.add_0_r.
  - intros H. rewrite (IH (S idx) i r H). now rewrite Nat.add_succ_r.
Qed.

(** ** Claim C1 *)

(** C1, as stated, fails: for a preview row whose fullname is the text
    <script>, the row written by the upload handler holds &lt;script> and
    the greater-than sign is not turned into an entity, so the text
    &lt;script&gt; of the claim does not occur in the markup. *)
Lemma script_fullname_keeps_gt :
  let st' := step (UploadClick (Ok upload_ok_response) (Ok script_preview))
               page0 in
  map tr_innerHTML (tbody st') = [row_markup 0 "&lt;script>" "555"]
  /\ index 0 "&lt;script&gt;" (row_markup 0 "&lt;script>" "555") = None
  /\ index 0 "&lt;script>" (row_markup 0 "&lt;script>" "555") = Some 74.
Proof. vm_compute. repeat split. Qed.

(** C1, amended: after a successful upload whose preview is an array of
    preview rows, the table body holds exactly one row per preview row, in
    order; row [i] is the template filled with the index [i] and, for
    fullname and phone, their text with every ampersand replaced by
    &amp; and then every less-than sign by &lt; (the greater-than sign is
    kept); the two escaped texts contain no less-than sign, and each
    checkbox starts unchecked. *)
Theorem upload_renders_one_escaped_row_per_preview_row :
  forall st file fs up pv j id prev rows,
    files st = file :: fs ->
    ok up = true -> json up = Ok j ->
    get_prop j "job_id" = Ok id -> plain id = true ->
    json pv = Ok prev ->
    get_prop prev "preview" = Ok (JArr rows) ->
    Forall (fun r => is_preview_row r = true) rows ->
    let st' := step (UploadClick (Ok up) (Ok pv)) st in
    previewData st' = JArr rows
    /\ List.length (tbody st') = List.length rows
    /\ tbody st' = rendered_rows 0 rows
    /\ forall i r, nth_error rows i = Some r ->
         nth_error (tbody st') i
         = Some (mkTr (row_markup i
                         (escape_text (cell_text (field "fullname" r)))
                         (escape_text (cell_text (field "phone" r))))
                      false)
         /\ occurs "<"%char (escape_text (cell_text (field "fullname" r)))
            = false
         /\ occurs "<"%char (escape_text (cell_text (field "phone" r)))
            = false.
Proof.
  intros st file fs up pv j id prev rows Hf Hok Hj Hid Hplain Hprev Hrows Hall.
  assert (E : step (UploadClick (Ok up) (Ok pv)) st
    = set_tbody (rendered_rows 0 rows)
        (set_previewArea_display "block"
           (set_previewData (JArr rows)
              (set_requests
                 ((requests st ++ [ReqUpload file])
                    ++ [ReqPreview ("/preview/" ++
                          match ToString id with
                          | Ok t => t
                          | Throw _ => EmptyString
                          end)])
                 (set_previewJobId id st))))).
  { unfold step, handler, uploadBtn_click. run_handler.
    rewrite Hf. run_handler. rewrite Hj, Hok. cbn [negb]. run_handler.
    rewrite Hid. run_handler.
    destruct (plain_ToString _ Hplain) as [t Ht].
    unfold str_plus. cbn [previewJobId set_previewJobId].
    rewrite Ht. cbn [res_bind]. run_handler.
    rewrite Hprev. run_handler. rewrite Hrows. run_handler.
    cbn [js_or truthy previewData set_previewData].
    rewrite (populatePreviewTable_preview rows _ Hall).
    destruct st; reflexivity. }
  cbv zeta. rewrite E. cbn [previewData tbody set_tbody set_previewData
    set_previewArea_display].
  repeat split.
  - apply rendered_rows_length.
  - rewrite (rendered_rows_nth rows 0 i r H). reflexivity.
  - apply escape_text_no_lt.
  - apply escape_text_no_lt.
Qed.

Lemma upload_renders_one_escaped_row_per_preview_row_witness :
  let st' := step (UploadClick (Ok upload_ok_response) (Ok two_row_preview))
               page0 in
  List.length (tbody st') = 2
  /\ nth_error (tbody st') 0
     = Some (mkTr (row_markup 0 "&lt;script>" "555") false)
  /\ nth_error (tbody st') 1
     = Some (mkTr (row_markup 1 "A&amp;B" "7") false).
Proof.
  pose proof (upload_renders_one_escaped_row_per_preview_row
    page0 "contacts.xlsx" [] upload_ok_response two_row_preview
    (JObj [("job_id", JStr "j1")]) (JStr "j1")
    (JObj [("preview",
       JArr [JObj [("fullname", JStr "<script>"); ("phone", JStr "555")];
             JObj [("fullname", JStr "A&B"); ("phone", JNum 7)]])])
    [JObj [("fullname", JStr "<script>"); ("phone", JStr "555")];
     JObj [("fullname", JStr "A&B"); ("phone", JNum 7)]]
    eq_refl eq_refl eq_refl eq_refl eq_refl eq_refl eq_refl
    ltac:(repeat constructor)) as [_ [Hlen [_ Hnth]]].
  split; [exact Hlen|].
  split.
  - exact (proj1 (Hnth 0 _ eq_refl)).
  - exact (proj1 (Hnth 1 _ eq_refl)).
Defined.

(** ** Claim C10 *)

(** C10, as stated, fails in two ways.  The number 0 is neither null nor
    undefined, yet [escapeHtml] gives the empty string for it and not its
    [toString] form: the guard of line 37 tests truthiness.  And
    [escapeHtml] throws on an object with an own [toString] property,
    which is not callable in a parsed value. *)
Lemma escapeHtml_zero_and_own_toString :
  ~ escapeHtml_nullish_only (JNum 0)
  /\ method_toString (JNum 0) = Ok "0"
  /\ escapeHtml (JNum 0) = Ok EmptyString
  /\ ~ escapeHtml_nullish_only (JObj [("toString", JNum 1)])
  /\ escapeHtml (JObj [("toString", JNum 1)]) = Throw TypeError.
Proof.
  repeat split; try reflexivity.
  - intros [s [Hs [t [Ht ->]]]]. vm_compute in Hs, Ht.
    injection Ht as <-. discriminate Hs.
  - intros [s [Hs _]]. discriminate Hs.
Qed.

(** C10, amended: [escapeHtml] maps every falsy value (undefined, null,
    false, 0, the empty string) to the empty string and coerces every
    other value through [toString] before escaping; it returns a string
    for every plain value (one in which no object reached by the
    conversion has an own [toString] property), scalars included; so a
    row object whose fullname or phone is missing is rendered with an
    empty text in that cell. *)
Theorem escapeHtml_falsy_empty_else_toString :
  forall v,
    (truthy v = false -> escapeHtml v = Ok EmptyString)
    /\ (truthy v = true ->
        escapeHtml v
        = res_bind (method_toString v) (fun t => Ok (escape_text t)))
    /\ (plain v = true -> exists s, escapeHtml v = Ok s)
    /\ (is_scalar v = true -> exists s, escapeHtml v = Ok s)
    /\ (forall idx props,
          lookup "fullname" props = None ->
          lookup "phone" props = Some v -> plain v = true ->
          render_row idx (JObj props)
          = Ok (row_markup idx EmptyString (escape_text (cell_text v))))
    /\ (forall idx props,
          lookup "phone" props = None ->
          lookup "fullname" props = Some v -> plain v = true ->
          render_row idx (JObj props)
          = Ok (row_markup idx (escape_text (cell_text v)) EmptyString))
    /\ (forall idx props,
          lookup "fullname" props = None -> lookup "phone" props = None ->
          render_row idx (JObj props)
          = Ok (row_markup idx EmptyString EmptyString)).
Proof.
  intros v. repeat split.
  - intros H. rewrite escapeHtml_cases, H. reflexivity.
  - intros H. rewrite escapeHtml_cases, H. reflexivity.
  - apply escapeHtml_plain.
  - intros H. apply escapeHtml_plain, scalar_plain, H.
  - intros idx props Hf Hp Hv. unfold render_row. simpl.
    rewrite Hf, Hp. cbn [res_bind].
    rewrite (escapeHtml_cell_text v Hv). reflexivity.
  - intros idx props Hp Hf Hv. unfold render_row. simpl.
    rewrite Hf, Hp. cbn [res_bind].
    rewrite (escapeHtml_cell_text v Hv). reflexivity.
  - intros idx props Hf Hp. unfold render_row. simpl.
    rewrite Hf, Hp. reflexivity.
Qed.

Lemma escapeHtml_falsy_empty_else_toString_witness :
  escapeHtml (JBool false) = Ok EmptyString
  /\ escapeHtml (JStr "a<b") = Ok "a&lt;b"
  /\ render_row 3 (JObj [("phone", JStr "a<b")])
     = Ok (row_markup 3 EmptyString "a&lt;b").
Proof.
  split; [|split].
  - exact (proj1 (escapeHtml_falsy_empty_else_toString (JBool false)) eq_refl).
  - exact (proj1 (proj2 (escapeHtml_falsy_empty_else_toString (JStr "a<b")))
             eq_refl).
  - exact (proj1 (proj2 (proj2 (proj2 (proj2
             (escapeHtml_falsy_empty_else_toString (JStr "a<b"))))))
             3 [("phone", JStr "a<b")] eq_refl eq_refl eq_refl).
Defined.

(** ** Resolving the selection *)

Lemma map_boxes_arr rows bs : forall i,
  map_boxes (JArr rows) i bs = Ok (checked_or_null rows i bs).
Proof.
  induction bs as [|b rest IH]; intros i; simpl; [reflexivity|].
  rewrite IH. destruct b; reflexivity.
Qed.

Lemma gather_selected_arr st rows :
  previewData st = JArr rows ->
  gatherTargetsFromSelection false st
  = (st, Ok (JArr (filter truthy (checked_or_null rows 0 (boxes st))))).
Proof.
  intros H. unfold gatherTargetsFromSelection. run_handler.
  rewrite H, map_boxes_arr. reflexivity.
Qed.

Lemma nth_skipn_cons (rows : list JsVal) : forall i,
  i < List.length rows ->
  skipn i rows = nth i rows JUndefined :: skipn (S i) rows.
Proof.
  induction rows as [|x rest IH]; intros [|i] H; simpl in *;
    try lia; [reflexivity|].
  apply IH. lia.
Qed.

Lemma filter_checked_or_null rows :
  Forall (fun r => truthy r = true) rows ->
  forall bs i,
    filter truthy (checked_or_null rows i bs)
    = selected_rows (skipn i rows) bs.
Proof.
  intros Hall. induction bs as [|b rest IH]; intros i.
  - simpl. destruct (skipn i rows); reflexivity.
  - cbn [checked_or_null filter].
    destruct (Nat.lt_ge_cases i (List.length rows)) as [Hlt|Hge].
    + rewrite (nth_skipn_cons rows i Hlt). cbn [selected_rows].
      destruct b; cbn [truthy]; [|apply IH].
      assert (Ht : truthy (nth i rows JUndefined) = true).
      { rewrite Forall_forall in Hall. apply Hall, nth_In, Hlt. }
      rewrite Ht, IH. reflexivity.
    + rewrite (skipn_all2 rows Hge). cbn [selected_rows].
      rewrite (nth_overflow rows JUndefined Hge).
      assert (E : filter truthy (checked_or_null rows (S i) rest) = []).
      { rewrite IH, skipn_all2 by lia. reflexivity. }
      destruct b; cbn [truthy]; exact E.
Qed.

Lemma Subseq_nil_l {A} (l : list A) : Subseq [] l.
Proof. induction l; constructor; assumption. Qed.

Lemma selected_rows_Subseq rows : forall bs,
  Subseq (selected_rows rows bs) rows.
Proof.
  induction rows as [|r rest IH]; intros bs; simpl.
  - constructor.
  - destruct bs as [|[|] bs'].
    + apply Subseq_nil_l.
    + apply Subseq_keep, IH.
    + apply Subseq_skip, IH.
Qed.

Lemma selected_rows_In rows : forall bs r,
  In r (selected_rows rows bs) <->
  exists i, nth_error rows i = Some r /\ nth_error bs i = Some true.
Proof.
  induction rows as [|x rest IH]; intros bs r; simpl.
  - split; [tauto|]. intros [[|i] [H _]]; discriminate.
  - destruct bs as [|b bs'].
    + split; [simpl; tauto|]. intros [[|i] [_ H]]; discriminate.
    + destruct b; simpl; rewrite IH; split.
      * intros [->|[i Hi]]; [exists 0; auto | exists (S i); auto].
      * intros [[|i] [H1 H2]]; simpl in *;
          [left; congruence | right; eauto].
      * intros [i Hi]. exists (S i); auto.
      * intros [[|i] [H1 H2]]; simpl in *; [discriminate | eauto].
Qed.

Lemma Subseq_In {A} (l1 l2 : list A) :
  Subseq l1 l2 -> forall x, In x l1 -> In x l2.
Proof.
  induction 1; simpl; intros y Hy; auto.
  destruct Hy; auto.
Qed.

(** Whatever the rows are, a resolved target is a truthy element of the
    preview array. *)
Lemma checked_or_null_In rows bs : forall i t,
  In t (filter truthy (checked_or_null rows i bs)) -> In t rows.
Proof.
  induction bs as [|b rest IH]; intros i t; simpl; [tauto|].
  destruct (truthy (if b then nth i rows JUndefined else JNull)) eqn:E;
    [|apply IH].
  intros [<-|H]; [|eapply IH, H].
  destruct b; [|discriminate].
  destruct (Nat.lt_ge_cases i (List.length rows)) as [Hlt|Hge].
  - apply nth_In, Hlt.
  - rewrite (nth_overflow rows JUndefined Hge) in E. discriminate.
Qed.

(** Reading an index of a truthy value does not throw. *)
Lemma map_boxes_total data bs : forall i,
  truthy data = true -> exists mapped, map_boxes data i bs = Ok mapped.
Proof.
  induction bs as [|b rest IH]; intros i Ht; simpl; [eauto|].
  destruct (IH (S i) Ht) as [xs Hxs]. rewrite Hxs.
  destruct b; [|simpl; eauto].
  destruct data; try discriminate; simpl; eauto.
  - destruct (get i s); simpl; eauto.
  - destruct (lookup (nat_to_string i) props); simpl; eauto.
Qed.

(** ** Claim C4 *)

(** C4: when the preview data is an array of rows (objects, or any truthy
    values), [gatherTargetsFromSelection(false)] returns exactly the rows
    whose checkbox is checked, in their original order: the result is a
    subsequence of the preview, it holds a row exactly when the checkbox
    at the row's position is checked, and it holds no null and no
    undefined entry. *)
Theorem gather_selected_is_checked_subsequence :
  forall st rows,
    previewData st = JArr rows ->
    Forall (fun r => truthy r = true) rows ->
    gatherTargetsFromSelection false st
    = (st, Ok (JArr (selected_rows rows (boxes st))))
    /\ Subseq (selected_rows rows (boxes st)) rows
    /\ (forall r, In r (selected_rows rows (boxes st)) <->
          exists i, nth_error rows i = Some r
                    /\ nth_error (boxes st) i = Some true)
    /\ ~ In JNull (selected_rows rows (boxes st))
    /\ ~ In JUndefined (selected_rows rows (boxes st)).
Proof.
  intros st rows Hdata Hall.
  assert (Hno : forall v, truthy v = false ->
                  ~ In v (selected_rows rows (boxes st))).
  { intros v Hv Hin.
    apply (Subseq_In _ _ (selected_rows_Subseq rows (boxes st))) in Hin.
    rewrite Forall_forall in Hall. rewrite (Hall v Hin) in Hv.
    discriminate. }
  repeat split.
  - rewrite (gather_selected_arr st rows Hdata).
    rewrite (filter_checked_or_null rows Hall). reflexivity.
  - apply selected_rows_Subseq.
  - apply selected_rows_In.
  - apply selected_rows_In.
  - apply Hno. reflexivity.
  - apply Hno. reflexivity.
Qed.

Lemma gather_selected_is_checked_subsequence_witness :
  boxes page_0_2_checked = [true; false; true]
  /\ gatherTargetsFromSelection false page_0_2_checked
     = (page_0_2_checked,
        Ok (JArr [JObj [("fullname", JStr "Ann"); ("phone", JStr "1")];
                  JObj [("fullname", JStr "Cy"); ("phone", JStr "3")]])).
Proof.
  split; [reflexivity|].
  exact (proj1 (gather_selected_is_checked_subsequence page_0_2_checked
    [JObj [("fullname", JStr "Ann"); ("phone", JStr "1")];
     JObj [("fullname", JStr "Bob"); ("phone", JStr "2")];
     JObj [("fullname", JStr "Cy"); ("phone", JStr "3")]]
    eq_refl ltac:(repeat constructor))).
Defined.

(** ** Claim C9 *)

(** C9: [gatherTargetsFromSelection(true)] returns the preview data
    itself, whatever the table body and its checkboxes are, in particular
    after select-all, deselect-all or a click on a checkbox; select-all
    and deselect-all set every checkbox and touch neither the preview
    data nor the network. *)
Theorem gather_all_returns_previewData :
  forall st,
    gatherTargetsFromSelection true st = (st, Ok (previewData st))
    /\ (forall trs,
          gatherTargetsFromSelection true (set_tbody trs st)
          = (set_tbody trs st, Ok (previewData st)))
    /\ snd (gatherTargetsFromSelection true (step SelectAllClick st))
       = Ok (previewData st)
    /\ snd (gatherTargetsFromSelection true (step DeselectAllClick st))
       = Ok (previewData st)
    /\ (forall i,
          snd (gatherTargetsFromSelection true (step (ToggleCheckbox i) st))
          = Ok (previewData st))
    /\ boxes (step SelectAllClick st) = map (fun _ => true) (boxes st)
    /\ boxes (step DeselectAllClick st) = map (fun _ => false) (boxes st)
    /\ requests (step SelectAllClick st) = requests st
    /\ requests (step DeselectAllClick st) = requests st.
Proof.
  intros st. repeat split; try reflexivity.
  - unfold boxes, step. simpl. unfold set_all_checked.
    rewrite !map_map. reflexivity.
  - unfold boxes, step. simpl. unfold set_all_checked.
    rewrite !map_map. reflexivity.
Qed.

(** ** Sending *)

Lemma startSend_empty_message targets pers send st :
  messageBox st = EmptyString ->
  startSend targets pers send st
  = (set_dialogs (dialogs st ++ [no_message_notice]) st, Ok tt).
Proof.
  intros H. unfold startSend. run_handler. rewrite H. reflexivity.
Qed.

Lemma startSend_requests targets pers send st :
  messageBox st <> EmptyString ->
  requests (fst (startSend targets pers send st))
  = (requests st ++ [ReqSend (mkSendBody (messageBox st) pers targets)])%list.
Proof.
  intros H. unfold startSend, pollProgress. run_handler.
  destruct (messageBox st =? EmptyString) eqn:E.
  - apply String.eqb_eq in E. contradiction.
  - destruct send as [res|e]; [|reflexivity].
    destruct (json res) as [j|e]; [|reflexivity].
    destruct (ok res); cbn [negb].
    + destruct (get_prop j "send_job_id"); reflexivity.
    + destruct (get_prop j "error") as [err|e]; [|reflexivity].
      cbv beta iota.
      destruct (str_plus "Send error: " (js_or err (JStr "unknown")));
        reflexivity.
Qed.

(** The send-selected handler by cases on the resolved targets. *)
Lemma sendSelected_cases answer send st :
  sendSelectedBtn_click answer send st =
  match map_boxes (previewData st) 0 (boxes st) with
  | Throw e => (st, Throw e)
  | Ok mapped =>
      match filter truthy mapped with
      | [] =>
          let asked := set_dialogs (dialogs st ++ [send_all_question]) st in
          if answer
          then startSend (previewData st) (personalizeToggle st) send asked
          else (asked, Ok tt)
      | t :: ts =>
          startSend (JArr (t :: ts)) (personalizeToggle st) send st
      end
  end.
Proof.
  unfold sendSelectedBtn_click, gatherTargetsFromSelection. run_handler.
  destruct (map_boxes (previewData st) 0 (boxes st)) as [mapped|e];
    [|reflexivity].
  destruct (filter truthy mapped) as [|t ts].
  - cbn. destruct answer; reflexivity.
  - cbn [get_length truthy List.length].
    replace (negb (Z.of_nat (S (List.length ts)) =? 0)%Z) with true
      by (symmetry; apply negb_true_iff, Z.eqb_neq; lia).
    reflexivity.
Qed.

Lemma sendAll_eq send st :
  sendAllBtn_click send st
  = startSend (previewData st) (personalizeToggle st) send st.
Proof. reflexivity. Qed.

Lemma startSend_requests_gen targets pers send st :
  requests (fst (startSend targets pers send st))
  = (requests st ++ send_requests st pers targets)%list.
Proof.
  unfold send_requests.
  destruct (messageBox st =? EmptyString) eqn:E.
  - apply String.eqb_eq in E.
    rewrite (startSend_empty_message _ _ _ _ E). simpl.
    now rewrite app_nil_r.
  - apply startSend_requests. intros H. rewrite H in E. discriminate.
Qed.

Lemma startSend_dialogs targets pers send st :
  exists more,
    dialogs (fst (startSend targets pers send st))
    = (dialogs st ++ more)%list.
Proof.
  unfold startSend, pollProgress. run_handler.
  destruct (messageBox st =? EmptyString); [simpl; eauto|].
  destruct send as [res|e]; [|exists []; simpl; now rewrite app_nil_r].
  destruct (json res) as [j|e]; [|exists []; simpl; now rewrite app_nil_r].
  destruct (ok res); cbn [negb].
  - destruct (get_prop j "send_job_id");
      exists []; simpl; now rewrite app_nil_r.
  - destruct (get_prop j "error") as [err|e];
      [|exists []; simpl; now rewrite app_nil_r].
    cbv beta iota.
    destruct (str_plus "Send error: " (js_or err (JStr "unknown")));
      [simpl; eauto | exists []; simpl; now rewrite app_nil_r].
Qed.

Lemma gather_selected_snd st :
  snd (gatherTargetsFromSelection false st)
  = res_bind (map_boxes (previewData st) 0 (boxes st))
      (fun mapped => Ok (JArr (filter truthy mapped))).
Proof.
  unfold gatherTargetsFromSelection. run_handler.
  destruct (map_boxes (previewData st) 0 (boxes st)); reflexivity.
Qed.

(** ** Claim C5 *)

(** C5, as stated, fails on its notice: send-selected with an empty
    message, nothing checked and the send-to-all question declined
    returns at line 95, before [startSend] is called; the only dialog is
    that question, and the notice of line 58 about the message is never
    shown.  No request is issued, as claimed. *)
Lemma declined_question_shows_no_message_notice :
  messageBox page_no_message_none_checked = EmptyString
  /\ snd (gatherTargetsFromSelection false page_no_message_none_checked)
     = Ok (JArr [])
  /\ let st' := step (SendSelectedClick false (Ok send_ok_response))
                  page_no_message_none_checked in
     dialogs st' = [send_all_question]
     /\ ~ In no_message_notice (dialogs st')
     /\ requests st' = requests page_no_message_none_checked.
Proof.
  split; [reflexivity|]. split; [reflexivity|]. cbv zeta.
  split; [reflexivity|]. split; [|reflexivity].
  intros [H|[]]. discriminate H.
Qed.

(** C5, amended: with an empty message, neither send handler issues a
    request or starts an interval, and the page is unchanged but for the
    dialogs shown.  Send-all shows the notice of [startSend].
    Send-selected shows it too, after the send-to-all question when
    nothing is selected, unless the user declines that question: then the
    handler ends on the question alone and no notice about the message is
    shown. *)
Theorem empty_message_sends_nothing :
  forall st,
    messageBox st = EmptyString ->
    (forall send,
       step (SendAllClick send) st
       = set_dialogs (dialogs st ++ [no_message_notice]) st)
    /\ (forall answer send,
          requests (step (SendSelectedClick answer send) st) = requests st
          /\ timers (step (SendSelectedClick answer send) st) = timers st)
    /\ (forall answer send,
          truthy (previewData st) = true ->
          exists shown,
            step (SendSelectedClick answer send) st
            = set_dialogs (dialogs st ++ shown) st
            /\ (shown = [no_message_notice]
                \/ shown = [send_all_question; no_message_notice]
                \/ (answer = false
                    /\ shown = [send_all_question]
                    /\ snd (gatherTargetsFromSelection false st)
                       = Ok (JArr [])))).
Proof.
  intros st Hmsg.
  assert (Hsel : forall answer send mapped,
    map_boxes (previewData st) 0 (boxes st) = Ok mapped ->
    step (SendSelectedClick answer send) st =
    match filter truthy mapped with
    | [] =>
        if answer
        then set_dialogs
               (dialogs st ++ [send_all_question; no_message_notice]) st
        else set_dialogs (dialogs st ++ [send_all_question]) st
    | _ :: _ => set_dialogs (dialogs st ++ [no_message_notice]) st
    end).
  { intros answer send mapped Hmap. unfold step, handler.
    rewrite sendSelected_cases, Hmap.
    destruct (filter truthy mapped).
    - destruct answer; [|reflexivity].
      cbv zeta. rewrite startSend_empty_message by exact Hmsg.
      destruct st; simpl. rewrite <- app_assoc. reflexivity.
    - rewrite startSend_empty_message by exact Hmsg. reflexivity. }
  split; [|split].
  - intros send. unfold step, handler. rewrite sendAll_eq.
    rewrite (startSend_empty_message _ _ _ _ Hmsg). reflexivity.
  - intros answer send.
    destruct (map_boxes (previewData st) 0 (boxes st)) as [mapped|e] eqn:Hmap.
    + rewrite (Hsel answer send mapped eq_refl).
      destruct (filter truthy mapped); [destruct answer|]; split; reflexivity.
    + unfold step, handler. rewrite sendSelected_cases, Hmap.
      split; reflexivity.
  - intros answer send Hdata.
    destruct (map_boxes_total (previewData st) (boxes st) 0 Hdata)
      as [mapped Hmap].
    rewrite (Hsel answer send mapped Hmap).
    destruct (filter truthy mapped) as [|t ts] eqn:Hf.
    + destruct answer; eexists; (split; [reflexivity|]).
      * right. left. reflexivity.
      * right. right. repeat split.
        rewrite gather_selected_snd, Hmap. simpl. now rewrite Hf.
    + eexists. split; [reflexivity|]. left. reflexivity.
Qed.

Lemma empty_message_sends_nothing_witness :
  messageBox page_no_message = EmptyString
  /\ step (SendAllClick (Ok send_ok_response)) page_no_message
     = set_dialogs [no_message_notice] page_no_message
  /\ requests (step (SendSelectedClick true (Ok send_ok_response))
                 page_no_message)
     = [ReqUpload "contacts.xlsx"; ReqPreview "/preview/j1"].
Proof.
  split; [reflexivity|].
  pose proof (empty_message_sends_nothing page_no_message eq_refl)
    as [Hall [Hsel _]].
  split.
  - exact (Hall (Ok send_ok_response)).
  - exact (proj1 (Hsel true (Ok send_ok_response))).
Defined.

(** ** Claim C7 *)



(** ** Claim C8 *)

(** C8: when the preview data is the array [rows], every request issued
    by send-selected is a send request whose targets are an array of
    elements of [rows], and every request issued by send-all is a send
    request whose targets are [rows] itself, whatever is checked; with a
    message, send-all issues exactly that one request. *)
Theorem send_targets_come_from_preview :
  forall st rows,
    previewData st = JArr rows ->
    (forall answer send, exists new,
       requests (step (SendSelectedClick answer send) st)
       = (requests st ++ new)%list
       /\ forall req, In req new ->
            exists body ts,
              req = ReqSend body /\ sb_targets body = JArr ts
              /\ incl ts rows)
    /\ (forall send, exists new,
          requests (step (SendAllClick send) st) = (requests st ++ new)%list
          /\ forall req, In req new ->
               exists body, req = ReqSend body
                            /\ sb_targets body = JArr rows)
    /\ (forall send,
          messageBox st <> EmptyString ->
          requests (step (SendAllClick send) st)
          = (requests st
             ++ [ReqSend (mkSendBody (messageBox st) (personalizeToggle st)
                            (JArr rows))])%list).
Proof.
  intros st rows Hdata.
  assert (Hone : forall pers targets req,
    In req (send_requests st pers targets) ->
    exists body, req = ReqSend body /\ sb_targets body = targets).
  { intros pers targets req. unfold send_requests.
    destruct (messageBox st =? EmptyString); [intros []|].
    intros [<-|[]]. eauto. }
  repeat split.
  - intros answer send. unfold step, handler.
    rewrite sendSelected_cases, Hdata, map_boxes_arr.
    destruct (filter truthy (checked_or_null rows 0 (boxes st)))
      as [|t ts] eqn:Hsel.
    + destruct answer.
      * cbv zeta. rewrite startSend_requests_gen.
        exists (send_requests
                  (set_dialogs (dialogs st ++ [send_all_question]) st)
                  (personalizeToggle st) (JArr rows)).
        split; [destruct st; reflexivity|].
        intros req Hin. unfold send_requests in Hin.
        cbn [messageBox set_dialogs] in Hin.
        destruct (Hone (personalizeToggle st) (JArr rows) req Hin)
          as [body [-> Hb]].
        exists body, rows. repeat split; auto. apply incl_refl.
      * exists []. split; [destruct st; simpl; now rewrite app_nil_r|].
        intros req [].
    + rewrite startSend_requests_gen.
      exists (send_requests st (personalizeToggle st) (JArr (t :: ts))).
      split; [reflexivity|].
      intros req Hin.
      destruct (Hone _ _ req Hin) as [body [-> Hb]].
      exists body, (t :: ts). repeat split; auto.
      intros x Hx. rewrite <- Hsel in Hx.
      eapply checked_or_null_In, Hx.
  - intros send. unfold step, handler.
    rewrite sendAll_eq, startSend_requests_gen, Hdata.
    eexists. split; [reflexivity|].
    intros req Hin. apply (Hone _ _ req Hin).
  - intros send Hm. unfold step, handler.
    rewrite sendAll_eq, startSend_requests, Hdata by exact Hm.
    reflexivity.
Qed.

Lemma send_targets_come_from_preview_witness :
  requests (step (SendSelectedClick false (Ok send_ok_response))
              page_0_2_checked)
  = [ReqUpload "contacts.xlsx"; ReqPreview "/preview/j1";
     ReqSend (mkSendBody "Hello" false
       (JArr [JObj [("fullname", JStr "Ann"); ("phone", JStr "1")];
              JObj [("fullname", JStr "Cy"); ("phone", JStr "3")]]))]
  /\ requests (step (SendAllClick (Ok send_ok_response)) page_0_2_checked)
     = (requests page_0_2_checked
        ++ [ReqSend (mkSendBody "Hello" false
                       (previewData page_0_2_checked))])%list.
Proof.
  split; [reflexivity|].
  refine (proj2 (proj2 (send_targets_come_from_preview page_0_2_checked
    _ eq_refl)) (Ok send_ok_response) _).
  discriminate.
Defined.

(** ** Claim C6 *)

(** C6, as stated, fails: when the body of the non-success response is
    not JSON, [res.json()] of line 12 rejects before the test of [res.ok],
    and no message at all is shown, neither the server's nor the generic
    one.  The same holds for the JSON body [null], on which reading
    [error] throws. *)
Lemma failed_upload_without_json_shows_nothing :
  ok error_page = false
  /\ dialogs (step (UploadClick (Ok error_page) (Throw NetworkError)) page0)
     = dialogs page0
  /\ dialogs (step (UploadClick (Ok (mkResponse false (Ok JNull)))
                      (Throw NetworkError)) page0)
     = dialogs page0
  /\ dialogs page0 = [].
Proof. repeat split. Qed.

(** C6, amended: for every upload whose response is not a success, the
    handler stops with no partial state change: the page is the same but
    for the logged upload request and at most one alert, so the stored job
    id, the preview data and the table are as before and no preview fetch
    is issued.  When the body is a JSON object, the alert shows the error
    field if it is a non-empty string, and the label unknown if the field
    is absent or falsy. *)
Theorem failed_upload_changes_nothing :
  forall st file fs up pv,
    files st = file :: fs ->
    ok up = false ->
    let st' := step (UploadClick (Ok up) pv) st in
    (exists shown,
       st' = set_dialogs (dialogs st ++ shown)
               (set_requests (requests st ++ [ReqUpload file]) st)
       /\ (List.length shown <= 1)%nat)
    /\ previewJobId st' = previewJobId st
    /\ previewData st' = previewData st
    /\ tbody st' = tbody st
    /\ requests st' = (requests st ++ [ReqUpload file])%list
    /\ (forall props s,
          json up = Ok (JObj props) ->
          lookup "error" props = Some (JStr s) -> s <> EmptyString ->
          dialogs st' = (dialogs st ++ [Alert ("Upload error: " ++ s)])%list)
    /\ (forall props,
          json up = Ok (JObj props) ->
          truthy (field "error" (JObj props)) = false ->
          dialogs st' = (dialogs st ++ [Alert "Upload error: unknown"])%list).
Proof.
  intros st file fs up pv Hf Hok. cbv zeta.
  assert (E : step (UploadClick (Ok up) pv) st =
    let sent := set_requests (requests st ++ [ReqUpload file]) st in
    match json up with
    | Ok j =>
        match get_prop j "error" with
        | Ok e =>
            match str_plus "Upload error: " (js_or e (JStr "unknown")) with
            | Ok msg => set_dialogs (dialogs st ++ [Alert msg]) sent
            | Throw _ => sent
            end
        | Throw _ => sent
        end
    | Throw _ => sent
    end).
  { unfold step, handler, uploadBtn_click. run_handler. rewrite Hf.
    run_handler. destruct (json up) as [j|e]; [|reflexivity].
    rewrite Hok. cbn [negb]. cbv beta iota.
    destruct (get_prop j "error") as [e|e]; [|reflexivity].
    cbv beta iota.
    destruct (str_plus "Upload error: " (js_or e (JStr "unknown")));
      reflexivity. }
  assert (Hshape : exists shown,
    step (UploadClick (Ok up) pv) st
    = set_dialogs (dialogs st ++ shown)
        (set_requests (requests st ++ [ReqUpload file]) st)
    /\ (List.length shown <= 1)%nat).
  { rewrite E. cbv zeta.
    assert (Hnone : set_requests (requests st ++ [ReqUpload file]) st
      = set_dialogs (dialogs st ++ [])
          (set_requests (requests st ++ [ReqUpload file]) st)).
    { destruct st; simpl. now rewrite app_nil_r. }
    destruct (json up) as [j|e];
      [|exists []; split; [exact Hnone | simpl; lia]].
    destruct (get_prop j "error") as [e|e];
      [|exists []; split; [exact Hnone | simpl; lia]].
    destruct (str_plus "Upload error: " (js_or e (JStr "unknown")))
      as [msg|e'];
      [|exists []; split; [exact Hnone | simpl; lia]].
    exists [Alert msg]. split; [reflexivity | simpl; lia]. }
  split; [exact Hshape|].
  destruct Hshape as [shown [Hst _]].
  repeat split; try (rewrite Hst; reflexivity).
  - intros props s Hj He Hs. rewrite E, Hj. cbv zeta.
    cbn [get_prop]. rewrite He. unfold js_or. cbn [truthy].
    destruct (s =? EmptyString) eqn:Es; [|reflexivity].
    apply String.eqb_eq in Es. contradiction.
  - intros props Hj He. rewrite E, Hj, get_prop_obj. cbv zeta.
    unfold js_or. rewrite He. reflexivity.
Qed.

Lemma failed_upload_changes_nothing_witness :
  let st' := step (UploadClick (Ok upload_refused) (Throw NetworkError))
               page_0_2_checked in
  dialogs st' = [Alert "Upload error: No file part"]
  /\ previewData st' = previewData page_0_2_checked
  /\ tbody st' = tbody page_0_2_checked
  /\ requests st'
     = [ReqUpload "contacts.xlsx"; ReqPreview "/preview/j1";
        ReqUpload "contacts.xlsx"].
Proof.
  pose proof (failed_upload_changes_nothing page_0_2_checked
    "contacts.xlsx" [] upload_refused (Throw NetworkError) eq_refl eq_refl)
    as [_ [_ [Hd [Ht [Hr [Hmsg _]]]]]].
  split; [|split; [|split]].
  - apply (Hmsg [("error", JStr "No file part")] "No file part" eq_refl
             eq_refl). discriminate.
  - exact Hd.
  - exact Ht.
  - exact Hr.
Defined.

(** ** Polling: a cleared interval stays silent *)

Section Frame.
Variable R : State -> State -> Prop.
Hypothesis R_refl : forall st, R st st.
Hypothesis R_trans : forall a b c, R a b -> R b c -> R a c.

Lemma stable_ret {A} (a : A) : stable R (ret a).
Proof. intros st. apply R_refl. Qed.

Lemma stable_lift {A} (r : Res A) : stable R (lift r).
Proof. intros st. apply R_refl. Qed.

Lemma stable_gets {A} (f : State -> A) : stable R (gets f).
Proof. intros st. apply R_refl. Qed.

Lemma stable_modify (f : State -> State) :
  (forall st, R st (f st)) -> stable R (modify f).
Proof. intros H st. apply H. Qed.

Lemma stable_bind {A B} (c : M A) (f : A -> M B) :
  stable R c -> (forall a, stable R (f a)) -> stable R (bind c f).
Proof.
  intros Hc Hf st. unfold bind.
  specialize (Hc st). destruct (c st) as [st1 [a|e]]; simpl in *.
  - eapply R_trans; [exact Hc | apply Hf].
  - exact Hc.
Qed.
End Frame.

Lemma quiet_refl id st : quiet id st st.
Proof. intros H. split; [exact H | reflexivity]. Qed.

Lemma quiet_trans id a b c : quiet id a b -> quiet id b c -> quiet id a c.
Proof.
  intros Hab Hbc Ha. destruct (Hab Ha) as [Hb Eb].
  destruct (Hbc Hb) as [Hc Ec]. split; [exact Hc | congruence].
Qed.

Lemma quiet_frame id st st' :
  timers st' = timers st -> requests st' = requests st -> quiet id st st'.
Proof.
  intros Ht Hr Hc. unfold cleared, progress_requests in *.
  rewrite Ht, Hr. split; [exact Hc | reflexivity].
Qed.

Lemma quiet_request id req st :
  is_progress_of id req = false ->
  quiet id st (set_requests (requests st ++ [req]) st).
Proof.
  intros Hreq Hc. split; [exact Hc|].
  unfold progress_requests. cbn [requests set_requests].
  rewrite filter_app. simpl. rewrite Hreq. apply app_nil_r.
Qed.

Lemma nth_error_update_nth {A} (f : A -> A) (l : list A) : forall k i,
  nth_error (update_nth k f l) i
  = if Nat.eqb i k then option_map f (nth_error l i) else nth_error l i.
Proof.
  induction l as [|x rest IH]; intros [|k] [|i]; simpl; try reflexivity.
  - destruct (Nat.eqb i k); reflexivity.
  - apply IH.
Qed.

Lemma quiet_timers_update id k f st :
  (forall t, timer_active t = false -> timer_active (f t) = false) ->
  quiet id st (set_timers (update_nth k f (timers st)) st).
Proof.
  intros Hf Hc. split; [|reflexivity].
  unfold cleared in *. cbn [timers set_timers].
  rewrite nth_error_update_nth.
  destruct (nth_error (timers st) id) as [t|]; [|discriminate].
  apply negb_true_iff in Hc.
  destruct (Nat.eqb id k); simpl; [rewrite (Hf t Hc)|rewrite Hc];
    reflexivity.
Qed.

Lemma quiet_timers_app id t st :
  quiet id st (set_timers (timers st ++ [t]) st).
Proof.
  intros Hc. split; [|reflexivity].
  unfold cleared in *. cbn [timers set_timers].
  destruct (nth_error (timers st) id) as [t0|] eqn:E; [|discriminate].
  rewrite nth_error_app1 by (apply nth_error_Some; congruence).
  rewrite E. exact Hc.
Qed.

(** One step of a proof that a handler is [stable]: split a [bind], close
    a pure part, hand a [modify] to [leaf], or branch on the value a
    [match] inspects. *)
Ltac stable_step Hrefl Htrans leaf :=
  lazymatch goal with
  | |- stable _ (bind _ _) => apply (stable_bind _ Htrans); [|intros ?]
  | |- stable _ (ret _) => apply (stable_ret _ Hrefl)
  | |- stable _ (lift _) => apply (stable_lift _ Hrefl)
  | |- stable _ (gets _) => apply (stable_gets _ Hrefl)
  | |- stable _ (modify _) => apply stable_modify; intros ?; leaf
  | |- stable _ (match ?x with _ => _ end) => destruct x
  end.

Ltac unfold_handlers :=
  unfold toggle_checkbox, uploadBtn_click, selectAllBtn_click,
    deselectAllBtn_click, sendSelectedBtn_click, sendAllBtn_click,
    tick, respond, progress_callback, startSend,
    gatherTargetsFromSelection, populatePreviewTable, pollProgress,
    clearInterval, alert, confirm, fetch.

Ltac quiet_leaf :=
  first [ apply quiet_frame; reflexivity
        | apply quiet_request; reflexivity
        | apply quiet_timers_app
        | apply quiet_timers_update; intros ? ?; assumption
        | apply quiet_timers_update; reflexivity ].

Ltac quiet_step id :=
  stable_step (quiet_refl id) (quiet_trans id) quiet_leaf.

Lemma forEach_rows_quiet id rows : forall idx,
  stable (quiet id) (forEach_rows idx rows).
Proof.
  induction rows as [|r rest IH]; intros idx; simpl.
  - quiet_step id.
  - unfold append_row. repeat quiet_step id. apply IH.
Qed.

Lemma click_handlers_quiet id ev :
  (forall k, ev <> Tick k) -> stable (quiet id) (handler ev).
Proof.
  intros Hev.
  destruct ev; simpl;
    try solve [unfold_handlers;
               repeat first [apply forEach_rows_quiet | quiet_step id]].
  exfalso. exact (Hev id0 eq_refl).
Qed.

Lemma tick_quiet id k : stable (quiet id) (tick k).
Proof.
  intros st Hc. unfold tick. run_handler.
  destruct (nth_error (timers st) k) as [t|] eqn:Ek;
    [|split; [exact Hc|reflexivity]].
  destruct (timer_active t) eqn:Ea; [|split; [exact Hc|reflexivity]].
  destruct (str_plus "/progress/" (timer_job t)) as [url|e];
    [|split; [exact Hc|reflexivity]].
  cbn [fst].
  assert (Hne : Nat.eqb k id = false).
  { apply Nat.eqb_neq. intros ->. unfold cleared in Hc.
    rewrite Ek, Ea in Hc. discriminate. }
  split.
  - unfold cleared in *. cbn [timers set_timers set_requests].
    rewrite nth_error_update_nth. rewrite Nat.eqb_sym, Hne. exact Hc.
  - unfold progress_requests. cbn [requests set_timers set_requests].
    rewrite filter_app. simpl. rewrite Hne. apply app_nil_r.
Qed.

Lemma step_quiet id ev st : quiet id st (step ev st).
Proof.
  unfold step. destruct ev;
    try (apply click_handlers_quiet; intros k; discriminate).
  apply tick_quiet.
Qed.

(** No later event wakes a cleared interval up. *)
Lemma run_quiet id evs : forall st,
  cleared id st = true ->
  cleared id (run evs st) = true
  /\ progress_requests id (run evs st) = progress_requests id st.
Proof.
  induction evs as [|ev rest IH]; intros st Hc; simpl.
  - split; [exact Hc | reflexivity].
  - destruct (step_quiet id ev st Hc) as [Hc1 E1].
    destruct (IH _ Hc1) as [Hc2 E2]. split; [exact Hc2 | congruence].
Qed.

(** ** The preview data stays an object *)

Lemma keeps_data_refl st : keeps_data st st.
Proof. intros H. exact H. Qed.

Lemma keeps_data_trans a b c :
  keeps_data a b -> keeps_data b c -> keeps_data a c.
Proof. unfold keeps_data. auto. Qed.

Lemma js_or_array_truthy p : truthy (js_or p (JArr [])) = true.
Proof. unfold js_or. destruct (truthy p) eqn:E; [exact E | reflexivity]. Qed.

Ltac keeps_data_step :=
  stable_step keeps_data_refl keeps_data_trans
    ltac:(first [ intros ?; apply js_or_array_truthy
                | intros H; exact H ]).

Lemma forEach_rows_keeps_data rows : forall idx,
  stable keeps_data (forEach_rows idx rows).
Proof.
  induction rows as [|r rest IH]; intros idx; simpl.
  - keeps_data_step.
  - unfold append_row. repeat keeps_data_step. apply IH.
Qed.

Lemma step_keeps_data ev st : keeps_data st (step ev st).
Proof.
  unfold step. revert st. change (stable keeps_data (handler ev)).
  destruct ev; simpl; unfold_handlers;
    repeat first [apply forEach_rows_keeps_data | keeps_data_step].
Qed.

(** In every page reached from a page whose preview data is truthy, as
    the initial one is, the preview data is truthy. *)
Lemma run_keeps_data evs : forall st,
  truthy (previewData st) = true -> truthy (previewData (run evs st)) = true.
Proof.
  induction evs as [|ev rest IH]; intros st H; simpl; [exact H|].
  apply IH, step_keeps_data, H.
Qed.

Lemma initial_data_truthy rows fs msg pers d1 d2 w ft t :
  truthy (previewData (initial rows fs msg pers d1 d2 w ft t)) = true.
Proof. reflexivity. Qed.

Lemma waiting_inv id st :
  waiting id st = true ->
  exists t n, nth_error (timers st) id = Some t /\ timer_inflight t = S n.
Proof.
  unfold waiting. destruct (nth_error (timers st) id) as [t|]; [|discriminate].
  destruct (timer_inflight t) as [|n] eqn:E; [discriminate|]. eauto.
Qed.

Lemma cleared_after_clear id f g st0 st :
  waiting id st = true ->
  timers st0 = update_nth id g (timers st) ->
  (forall t, timer_active (f t) = false) ->
  cleared id (set_timers (update_nth id f (timers st0)) st0) = true.
Proof.
  intros Hw Ht Hf. destruct (waiting_inv _ _ Hw) as [t [n [E _]]].
  unfold cleared. cbn [timers set_timers].
  rewrite Ht, !nth_error_update_nth, Nat.eqb_refl, E. simpl.
  now rewrite Hf.
Qed.

(** ** Claim C2 *)




(** ** Claim C3 *)

(** C3: when a successful progress response carries a progress state
    whose status is completed or failed, the callback shows its percent,
    clears the interval and requests nothing; from then on no event
    whatsoever makes this interval issue a progress request again. *)
Theorem terminal_progress_response_stops_polling :
  forall st id r j,
    waiting id st = true ->
    ok r = true -> json r = Ok j ->
    is_progress_state j = true ->
    is_terminal j = true ->
    let st' := step (Respond id (Ok r)) st in
    cleared id st' = true
    /\ requests st' = requests st
    /\ (forall evs,
          progress_requests id (run evs st') = progress_requests id st)
    /\ exists p,
         ToString (field "percent" j) = Ok p
         /\ progressFill_text st' = p ++ "%"
         /\ progressFill_width st' = p ++ "%".
Proof.
  intros st id r j Hw Hok Hj Hps Hterm. cbv zeta.
  destruct (waiting_inv _ _ Hw) as [t [n [Ht Hn]]].
  destruct j as [| | | | | |props]; try discriminate.
  unfold is_progress_state in Hps.
  repeat (apply andb_prop in Hps; destruct Hps as [Hps ?]).
  destruct (plain_ToString _ Hps) as [p Hp].
  destruct (plain_ToString (field "status" (JObj props))) as [s1 Hs1];
    [assumption|].
  destruct (plain_ToString (field "sent" (JObj props))) as [s2 Hs2];
    [assumption|].
  destruct (plain_ToString (field "total" (JObj props))) as [s3 Hs3];
    [assumption|].
  destruct (plain_ToString (field "failed" (JObj props))) as [s4 Hs4];
    [assumption|].
  assert (E : step (Respond id (Ok r)) st =
    let st0 :=
      set_progressText
        ("Status: " ++ s1 ++ " " ++ emdash ++ " Sent: " ++ s2 ++ " / " ++ s3
           ++ " " ++ emdash ++ " Failed: " ++ s4)
        (set_progressFill_text (p ++ "%")
           (set_progressFill_width (p ++ "%")
              (set_timers
                 (update_nth id
                    (fun t => mkTimer (timer_job t) (timer_active t) n)
                    (timers st)) st))) in
    set_timers
      (update_nth id
         (fun t => mkTimer (timer_job t) false (timer_inflight t))
         (timers st0)) st0).
  { unfold step, handler, respond, progress_callback, clearInterval.
    run_handler. rewrite Ht, Hn. run_handler. rewrite Hj, Hok.
    cbn [negb]. cbv beta iota. rewrite !get_prop_obj. cbv beta iota.
    unfold plus_str. rewrite Hp, Hs1, Hs2, Hs3, Hs4.
    cbn [res_bind]. cbv beta iota.
    unfold is_terminal in Hterm.
    destruct (strict_eq_str (field "status" (JObj props)) "completed");
      [reflexivity|].
    cbn [orb] in Hterm. rewrite Hterm. reflexivity. }
  assert (Hc : cleared id (step (Respond id (Ok r)) st) = true).
  { rewrite E. cbv zeta. eapply cleared_after_clear;
      [exact Hw | reflexivity | reflexivity]. }
  repeat split.
  - exact Hc.
  - rewrite E. reflexivity.
  - intros evs. destruct (run_quiet id evs _ Hc) as [_ ->].
    unfold progress_requests. rewrite E. reflexivity.
  - exists p. rewrite E. repeat split. exact Hp.
Qed.

Lemma terminal_progress_response_stops_polling_witness :
  let st' := step (Respond 0 (Ok (progress_response "completed" 100 3 0 3)))
               page_before_completed in
  progressFill_text page_before_completed = "80%"
  /\ progressFill_text st' = "100%"
  /\ progressFill_width st' = "100%"
  /\ cleared 0 st' = true
  /\ forall evs,
       progress_requests 0 (run evs st')
       = [ReqProgress 0 "/progress/s1"; ReqProgress 0 "/progress/s1";
          ReqProgress 0 "/progress/s1"; ReqProgress 0 "/progress/s1"].
Proof.
  pose proof (terminal_progress_response_stops_polling
    page_before_completed 0 (progress_response "completed" 100 3 0 3) _
    eq_refl eq_refl eq_refl eq_refl eq_refl)
    as [Hc [_ [Hevs [p [Hp [Htext Hwidth]]]]]].
  injection Hp as <-.
  split; [reflexivity|].
  split; [exact Htext|].
  split; [exact Hwidth|].
  split; [exact Hc | exact Hevs].
Defined.

(** * Further properties *)

(** ** Escaping *)

Lemma string_app_assoc (a b c : string) : (a ++ b) ++ c = a ++ b ++ c.
Proof. induction a as [|x a IH]; simpl; [reflexivity | now rewrite IH]. Qed.

Lemma replace_all_app c r s t :
  replace_all c r (s ++ t) = replace_all c r s ++ replace_all c r t.
Proof.
  induction s as [|a s IH]; simpl; [reflexivity|].
  destruct (Ascii.eqb a c); rewrite IH.
  - symmetry. apply string_app_assoc.
  - reflexivity.
Qed.

Lemma replace_all_unchanged c r s :
  occurs c s = false -> replace_all c r s = s.
Proof.
  induction s as [|a s IH]; simpl; [reflexivity|].
  destruct (Ascii.eqb a c); simpl; [discriminate|].
  intros H. now rewrite IH.
Qed.

Lemma escape_text_cons c s :
  escape_text (String c s) =
  (if Ascii.eqb c "&"%char then "&amp;"
   else if Ascii.eqb c "<"%char then "&lt;"
   else String c EmptyString) ++ escape_text s.
Proof.
  unfold escape_text. cbn [replace_all].
  destruct (Ascii.eqb c "&"%char) eqn:E1.
  - rewrite replace_all_app. reflexivity.
  - cbn [replace_all]. destruct (Ascii.eqb c "<"%char); reflexivity.
Qed.

Lemma unescape_escape s : unescape_text (escape_text s) = s.
Proof.
  induction s as [|c s IH]; [reflexivity|].
  rewrite escape_text_cons.
  destruct (Ascii.eqb c "&"%char) eqn:E1.
  - apply Ascii.eqb_eq in E1. subst c. simpl. now rewrite IH.
  - destruct (Ascii.eqb c "<"%char) eqn:E2.
    + apply Ascii.eqb_eq in E2. subst c. simpl. now rewrite IH.
    + simpl. rewrite E1, IH. reflexivity.
Qed.

(** X1: escaping is injective: two different texts never get the same
    escaped form, so the text shown in a cell determines the field. *)
Theorem escape_text_distinguishes :
  forall s1 s2, s1 <> s2 -> escape_text s1 <> escape_text s2.
Proof.
  intros s1 s2 Hne Heq. apply Hne.
  rewrite <- (unescape_escape s1), <- (unescape_escape s2), Heq.
  reflexivity.
Qed.

Lemma escape_text_distinguishes_witness :
  escape_text "<" = "&lt;"
  /\ escape_text "&lt;" = "&amp;lt;"
  /\ escape_text "<" <> escape_text "&lt;".
Proof.
  split; [reflexivity|]. split; [reflexivity|].
  apply (escape_text_distinguishes "<" "&lt;"). discriminate.
Defined.

(** X2: escaping works character by character: the escaped form of a
    concatenation is the concatenation of the escaped forms, and a text
    with neither ampersand nor less-than sign is left unchanged. *)
Theorem escape_text_app_and_safe :
  forall s t,
    escape_text (s ++ t) = escape_text s ++ escape_text t
    /\ (occurs "&"%char s = false -> occurs "<"%char s = false ->
        escape_text s = s).
Proof.
  intros s t. split.
  - unfold escape_text. now rewrite !replace_all_app.
  - intros Ha Hl. unfold escape_text.
    rewrite (replace_all_unchanged _ _ _ Ha).
    apply replace_all_unchanged, Hl.
Qed.

Lemma escape_text_app_and_safe_witness :
  escape_text ("Tom & " ++ "<Jerry>") = "Tom &amp; " ++ "&lt;Jerry>"
  /\ escape_text "+1 (555) 010-9999" = "+1 (555) 010-9999".
Proof.
  split.
  - exact (proj1 (escape_text_app_and_safe "Tom & " "<Jerry>")).
  - exact (proj2 (escape_text_app_and_safe "+1 (555) 010-9999" EmptyString)
             eq_refl eq_refl).
Defined.

Lemma ToString_arr l : ToString (JArr l) = join_elems l.
Proof.
  induction l as [|x rest IH]; [reflexivity|].
  destruct rest as [|y rest']; [reflexivity|].
  change (ToString (JArr (x :: y :: rest')))
    with (res_bind (elem_string x) (fun s =>
          res_bind (ToString (JArr (y :: rest')))
            (fun t => Ok (s ++ "," ++ t)))).
  rewrite IH. reflexivity.
Qed.

Lemma plain_arr l : plain (JArr l) = forallb plain l.
Proof. induction l as [|x rest IH]; simpl in *; congruence. Qed.

Lemma elem_string_plain x s :
  (forall t, ToString x = Ok t -> plain x = true) ->
  elem_string x = Ok s -> plain x = true.
Proof. intros H. destruct x; simpl; try reflexivity; apply H. Qed.

Lemma ToString_plain v : forall s, ToString v = Ok s -> plain v = true.
Proof.
  induction v as [| |b|n|t|l IH|props _] using JsVal_deep_ind;
    intros s Hs; try reflexivity.
  - rewrite ToString_arr in Hs. rewrite plain_arr.
    revert s Hs. induction IH as [|x rest Hx _ IHrest]; intros s Hs;
      [reflexivity|].
    cbn [forallb join_elems] in *.
    destruct rest as [|y rest'].
    + rewrite (elem_string_plain x s Hx Hs). reflexivity.
    + destruct (elem_string x) as [sx|] eqn:Ex; [|discriminate].
      cbn [res_bind] in Hs.
      destruct (join_elems (y :: rest')) as [sr|] eqn:Er; [|discriminate].
      rewrite (elem_string_plain x sx Hx Ex), (IHrest sr eq_refl).
      reflexivity.
  - simpl in *. destruct (has_key "toString" props);
      [discriminate|reflexivity].
Qed.

Lemma elem_string_error x e :
  (ToString x = Throw e -> e = TypeError) ->
  elem_string x = Throw e -> e = TypeError.
Proof. intros H. destruct x; simpl; try discriminate; apply H. Qed.

Lemma ToString_error v e : ToString v = Throw e -> e = TypeError.
Proof.
  induction v as [| |b|n|t|l IH|props _] using JsVal_deep_ind;
    intros Hs; try discriminate.
  - destruct b; discriminate.
  - rewrite ToString_arr in Hs.
    induction IH as [|x rest Hx _ IHrest]; [discriminate|].
    cbn [join_elems] in Hs.
    destruct rest as [|y rest'].
    + apply (elem_string_error x e Hx Hs).
    + destruct (elem_string x) as [sx|ex] eqn:Ex; cbn [res_bind] in Hs.
      * destruct (join_elems (y :: rest')) as [sr|er] eqn:Er;
          cbn [res_bind] in Hs; [discriminate|].
        injection Hs as <-. apply IHrest. reflexivity.
      * injection Hs as <-. apply (elem_string_error x ex Hx Ex).
  - simpl in Hs. destruct (has_key "toString" props); [|discriminate].
    now injection Hs as <-.
Qed.

(** X3: [escapeHtml] fails on exactly the truthy values that are not
    plain, those in which the string conversion meets an object with an
    own [toString] property, and its only error is a [TypeError]. *)
Theorem escapeHtml_throws_iff :
  forall v,
    ((exists e, escapeHtml v = Throw e) <->
     truthy v = true /\ plain v = false)
    /\ (forall e, escapeHtml v = Throw e -> e = TypeError).
Proof.
  intros v. rewrite escapeHtml_cases.
  destruct (truthy v) eqn:Ht.
  - rewrite (truthy_method_toString _ Ht).
    destruct (ToString v) as [s|e] eqn:Es; cbn [res_bind].
    + split.
      * split; [intros [e He]; discriminate|].
        intros [_ Hp]. rewrite (ToString_plain _ _ Es) in Hp. discriminate.
      * intros e He. discriminate.
    + split.
      * split; [|eauto]. intros _. split; [reflexivity|].
        destruct (plain v) eqn:Hp; [|reflexivity].
        destruct (plain_ToString _ Hp) as [s Hs]. congruence.
      * intros e' [= <-]. eapply ToString_error, Es.
  - split.
    + split; [intros [e He]; discriminate | intros [H _]; discriminate].
    + intros e He. discriminate.
Qed.

Lemma escapeHtml_throws_iff_witness :
  truthy (JObj [("toString", JNum 1)]) = true
  /\ plain (JObj [("toString", JNum 1)]) = false
  /\ escapeHtml (JObj [("toString", JNum 1)]) = Throw TypeError.
Proof.
  split; [reflexivity|]. split; [reflexivity|].
  destruct (proj2 (proj1 (escapeHtml_throws_iff
              (JObj [("toString", JNum 1)]))) (conj eq_refl eq_refl))
    as [e He].
  rewrite He. f_equal.
  exact (proj2 (escapeHtml_throws_iff (JObj [("toString", JNum 1)])) e He).
Defined.

Lemma count_char_app c s t :
  count_char c (s ++ t) = count_char c s + count_char c t.
Proof.
  induction s as [|a s IH]; simpl; [reflexivity|].
  rewrite IH. apply Nat.add_assoc.
Qed.

Lemma occurs_count c s : occurs c s = false -> count_char c s = 0.
Proof.
  induction s as [|a s IH]; simpl; [reflexivity|].
  destruct (Ascii.eqb a c); simpl; [discriminate | exact IH].
Qed.

Lemma digits_no_lt d :
  count_char "<"%char (NilEmpty.string_of_uint d) = 0.
Proof. induction d; simpl; assumption || reflexivity. Qed.

Lemma nat_to_string_no_lt n : count_char "<"%char (nat_to_string n) = 0.
Proof.
  unfold nat_to_string, NilZero.string_of_uint.
  destruct (Nat.to_uint n); try apply digits_no_lt. reflexivity.
Qed.

(** X4: whatever a preview row holds, the markup written for it contains
    exactly the seven less-than signs of the template: the data adds no
    tag, so every table row has one checkbox and two text cells. *)
Theorem row_markup_adds_no_tag :
  forall idx r html,
    render_row idx r = Ok html -> count_char "<"%char html = 7.
Proof.
  intros idx r html. unfold render_row.
  destruct (get_prop r "fullname") as [f|]; [|discriminate].
  cbn [res_bind].
  destruct (escapeHtml f) as [ef|] eqn:Ef; [|discriminate].
  cbn [res_bind].
  destruct (get_prop r "phone") as [p|]; [|discriminate].
  cbn [res_bind].
  destruct (escapeHtml p) as [ep|] eqn:Ep; [|discriminate].
  cbn [res_bind]. intros [= <-].
  unfold row_markup. rewrite !count_char_app.
  rewrite nat_to_string_no_lt.
  rewrite (occurs_count _ _ (escapeHtml_no_lt _ _ Ef)).
  rewrite (occurs_count _ _ (escapeHtml_no_lt _ _ Ep)).
  reflexivity.
Qed.

Lemma row_markup_adds_no_tag_witness :
  render_row 0
    (JObj [("fullname", JStr "<input type=checkbox><b>x</b>");
           ("phone", JStr "<<<")])
  = Ok (row_markup 0 "&lt;input type=checkbox>&lt;b>x&lt;/b>"
                   "&lt;&lt;&lt;")
  /\ count_char "<"%char
       (row_markup 0 "&lt;input type=checkbox>&lt;b>x&lt;/b>"
                   "&lt;&lt;&lt;") = 7.
Proof.
  split; [reflexivity|].
  apply (row_markup_adds_no_tag 0
    (JObj [("fullname", JStr "<input type=checkbox><b>x</b>");
           ("phone", JStr "<<<")])).
  reflexivity.
Defined.

(** ** Upload *)

(** X5: an upload click with no file chosen only shows the notice: no
    request is issued and nothing else on the page changes. *)
Theorem upload_without_file_only_alerts :
  forall st up pv,
    files st = [] ->
    step (UploadClick up pv) st
    = set_dialogs (dialogs st ++ [Alert "Pick an Excel file first"]) st.
Proof.
  intros st up pv H. unfold step, handler, uploadBtn_click. run_handler.
  rewrite H. reflexivity.
Qed.

Lemma upload_without_file_only_alerts_witness :
  let st := step (ChooseFiles []) page_0_2_checked in
  requests (step (UploadClick (Ok upload_ok_response) (Ok two_row_preview))
              st)
  = requests page_0_2_checked
  /\ dialogs (step (UploadClick (Ok upload_ok_response)
                      (Ok two_row_preview)) st)
     = [Alert "Pick an Excel file first"].
Proof.
  cbv zeta.
  rewrite (upload_without_file_only_alerts
             (step (ChooseFiles []) page_0_2_checked)
             (Ok upload_ok_response) (Ok two_row_preview) eq_refl).
  split; reflexivity.
Defined.

(** The outcome of lines 19 and 20 up to the property read: the preview
    fetch, its body and the [preview] field. *)
Lemma upload_ok_shape st file fs up pv j id u :
  files st = file :: fs ->
  ok up = true -> json up = Ok j ->
  get_prop j "job_id" = Ok id -> ToString id = Ok u ->
  uploadBtn_click (Ok up) pv st =
  let st1 :=
    set_requests
      (requests st ++ [ReqUpload file; ReqPreview ("/preview/" ++ u)])
      (set_previewJobId id st) in
  match res_bind (res_bind pv json) (fun prev => get_prop prev "preview") with
  | Throw e => (st1, Throw e)
  | Ok p =>
      populatePreviewTable (js_or p (JArr []))
        (set_previewData (js_or p (JArr [])) st1)
  end.
Proof.
  intros Hf Hok Hj Hid Hu. unfold uploadBtn_click. run_handler.
  rewrite Hf. run_handler. rewrite Hj, Hok. cbn [negb]. run_handler.
  rewrite Hid. run_handler. unfold str_plus.
  cbn [previewJobId set_previewJobId]. rewrite Hu. cbn [res_bind].
  run_handler.
  assert (E : forall (l : list Request) (a b : Request),
            ((l ++ [a]) ++ [b] = l ++ [a; b])%list).
  { intros. now rewrite <- app_assoc. }
  destruct pv as [r|e]; cbn [res_bind].
  - destruct (json r) as [prev|e]; cbn [res_bind].
    + destruct (get_prop prev "preview") as [p|e].
      * destruct st; cbn. rewrite E. reflexivity.
      * destruct st; cbn. rewrite E. reflexivity.
    + destruct st; cbn. rewrite E. reflexivity.
  - destruct st; cbn. rewrite E. reflexivity.
Qed.

(** X6: when the upload succeeds but the preview cannot be read (the
    fetch rejects, the body is not JSON, or it is null), the new job id
    has already been stored and both requests issued, while the preview
    data and the table still are those of the previous upload. *)
Theorem upload_with_unreadable_preview_keeps_old_preview :
  forall st file fs up pv j id u e,
    files st = file :: fs ->
    ok up = true -> json up = Ok j ->
    get_prop j "job_id" = Ok id -> ToString id = Ok u ->
    res_bind (res_bind pv json) (fun prev => get_prop prev "preview")
    = Throw e ->
    step (UploadClick (Ok up) pv) st
    = set_requests
        (requests st ++ [ReqUpload file; ReqPreview ("/preview/" ++ u)])
        (set_previewJobId id st).
Proof.
  intros st file fs up pv j id u e Hf Hok Hj Hid Hu Hpv.
  unfold step, handler.
  rewrite (upload_ok_shape st file fs up pv j id u Hf Hok Hj Hid Hu).
  cbv zeta. rewrite Hpv. reflexivity.
Qed.

Lemma upload_with_unreadable_preview_keeps_old_preview_witness :
  let st' := step (UploadClick (Ok upload_second_job) (Ok error_page))
               page_0_2_checked in
  previewJobId st' = JStr "j2"
  /\ previewData st' = previewData page_0_2_checked
  /\ tbody st' = tbody page_0_2_checked
  /\ requests st'
     = [ReqUpload "contacts.xlsx"; ReqPreview "/preview/j1";
        ReqUpload "contacts.xlsx"; ReqPreview "/preview/j2"].
Proof.
  cbv zeta.
  rewrite (upload_with_unreadable_preview_keeps_old_preview
             page_0_2_checked "contacts.xlsx" [] upload_second_job
             (Ok error_page) (JObj [("job_id", JStr "j2")]) (JStr "j2")
             "j2" SyntaxError eq_refl eq_refl eq_refl eq_refl eq_refl
             eq_refl).
  repeat split.
Defined.

(** X7: when the upload succeeds and the preview body has no [preview]
    field, or a falsy one, the preview becomes the empty array and the
    table is emptied, whatever the [ok] flag of the preview response is:
    that flag is never read. *)
Theorem upload_without_preview_field_empties_preview :
  forall st file fs up r j id u prev p,
    files st = file :: fs ->
    ok up = true -> json up = Ok j ->
    get_prop j "job_id" = Ok id -> ToString id = Ok u ->
    json r = Ok prev -> get_prop prev "preview" = Ok p ->
    truthy p = false ->
    step (UploadClick (Ok up) (Ok r)) st
    = set_tbody []
        (set_previewArea_display "block"
           (set_previewData (JArr [])
              (set_requests
                 (requests st
                    ++ [ReqUpload file; ReqPreview ("/preview/" ++ u)])
                 (set_previewJobId id st)))).
Proof.
  intros st file fs up r j id u prev p Hf Hok Hj Hid Hu Hr Hp Ht.
  unfold step, handler.
  rewrite (upload_ok_shape st file fs up (Ok r) j id u Hf Hok Hj Hid Hu).
  cbv zeta. cbn [res_bind]. rewrite Hr. cbn [res_bind]. rewrite Hp.
  unfold js_or. rewrite Ht. reflexivity.
Qed.

Lemma upload_without_preview_field_empties_preview_witness :
  let st' := step (UploadClick (Ok upload_second_job) (Ok preview_not_found))
               page_0_2_checked in
  previewData st' = JArr [] /\ tbody st' = [] /\ dialogs st' = [].
Proof.
  cbv zeta.
  rewrite (upload_without_preview_field_empties_preview
             page_0_2_checked "contacts.xlsx" [] upload_second_job
             preview_not_found (JObj [("job_id", JStr "j2")]) (JStr "j2")
             "j2" (JObj [("error", JStr "no such job")]) JUndefined
             eq_refl eq_refl eq_refl eq_refl eq_refl eq_refl eq_refl
             eq_refl).
  repeat split.
Defined.

Lemma forEach_rows_stops good : forall idx st bad rest e,
  Forall (fun r => is_preview_row r = true) good ->
  render_row (idx + List.length good) bad = Throw e ->
  forEach_rows idx (good ++ bad :: rest) st
  = (set_tbody (tbody st ++ rendered_rows idx good) st, Throw e).
Proof.
  induction good as [|g good IH]; intros idx st bad rest e Hall Hbad.
  - simpl in *. rewrite Nat.add_0_r in Hbad.
    unfold append_row. run_handler. rewrite Hbad.
    rewrite app_nil_r, set_tbody_same. reflexivity.
  - inversion Hall as [|? ? Hg Hgood]; subst.
    cbn [app forEach_rows rendered_rows]. unfold append_row. run_handler.
    rewrite (render_row_preview idx g Hg). run_handler.
    rewrite (IH (S idx) _ bad rest e Hgood).
    + destruct st; simpl. rewrite <- app_assoc. reflexivity.
    + simpl in Hbad. rewrite Nat.add_succ_r in Hbad. exact Hbad.
Qed.

(** X8: the table is filled row by row and the first row that cannot be
    rendered ends the filling with its exception: the rows before it are
    in the table, it and the rows after it are not. *)
Theorem populatePreviewTable_stops_at_first_bad_row :
  forall st good bad rest e,
    Forall (fun r => is_preview_row r = true) good ->
    render_row (List.length good) bad = Throw e ->
    populatePreviewTable (JArr (good ++ bad :: rest)) st
    = (set_tbody (rendered_rows 0 good)
         (set_previewArea_display "block" st),
       Throw e).
Proof.
  intros st good bad rest e Hall Hbad.
  unfold populatePreviewTable. run_handler.
  rewrite (forEach_rows_stops good 0 _ bad rest e Hall Hbad).
  destruct st; reflexivity.
Qed.

Lemma populatePreviewTable_stops_at_first_bad_row_witness :
  let ann := JObj [("fullname", JStr "Ann"); ("phone", JStr "1")] in
  let cy := JObj [("fullname", JStr "Cy"); ("phone", JStr "3")] in
  populatePreviewTable (JArr [ann; JNull; cy]) page0
  = (set_tbody [mkTr (row_markup 0 "Ann" "1") false]
       (set_previewArea_display "block" page0),
     Throw TypeError).
Proof.
  cbv zeta.
  exact (populatePreviewTable_stops_at_first_bad_row page0
    [JObj [("fullname", JStr "Ann"); ("phone", JStr "1")]] JNull
    [JObj [("fullname", JStr "Cy"); ("phone", JStr "3")]] TypeError
    ltac:(repeat constructor) eq_refl).
Defined.

(** ** The table follows the preview data *)

Lemma same_preview_refl st : same_preview st st.
Proof. repeat split. Qed.

Lemma same_preview_trans a b c :
  same_preview a b -> same_preview b c -> same_preview a c.
Proof.
  intros [H1 [H2 H3]] [H4 [H5 H6]]. repeat split; congruence.
Qed.

Lemma same_preview_frame st st' :
  previewData st' = previewData st ->
  previewJobId st' = previewJobId st ->
  tbody st' = tbody st -> same_preview st st'.
Proof. intros H1 H2 H3. repeat split; congruence. Qed.

Lemma update_nth_markup i f (rows : list Tr) :
  (forall tr, tr_innerHTML (f tr) = tr_innerHTML tr) ->
  map tr_innerHTML (update_nth i f rows) = map tr_innerHTML rows.
Proof.
  intros Hf. revert i.
  induction rows as [|x rest IH]; intros [|i]; simpl; try reflexivity.
  - now rewrite Hf.
  - now rewrite IH.
Qed.

Ltac same_preview_leaf :=
  first [ apply same_preview_frame; reflexivity
        | repeat split; cbn [tbody set_tbody];
          first [ unfold set_all_checked; rewrite map_map; reflexivity
                | apply update_nth_markup; reflexivity ] ].

Ltac same_preview_step :=
  stable_step same_preview_refl same_preview_trans same_preview_leaf.

Lemma step_same_preview ev st :
  is_upload ev = false -> same_preview st (step ev st).
Proof.
  intros Hev. unfold step. revert st.
  change (stable same_preview (handler ev)).
  destruct ev; try discriminate; simpl; unfold_handlers;
    repeat same_preview_step.
Qed.

Lemma run_same_preview evs : forall st,
  forallb (fun ev => negb (is_upload ev)) evs = true ->
  same_preview st (run evs st).
Proof.
  induction evs as [|ev rest IH]; intros st H; simpl in *.
  - apply same_preview_refl.
  - apply andb_prop in H. destruct H as [Hev Hrest].
    eapply same_preview_trans; [|apply IH, Hrest].
    apply step_same_preview. now apply negb_true_iff.
Qed.

(** X9: only an upload click changes the preview: through any sequence of
    other events (selection, typing, sending, ticks, responses) the
    stored job id, the preview data and the markup of every table row
    stay what they were. *)
Theorem only_upload_changes_preview :
  forall evs st,
    forallb (fun ev => negb (is_upload ev)) evs = true ->
    previewData (run evs st) = previewData st
    /\ previewJobId (run evs st) = previewJobId st
    /\ map tr_innerHTML (tbody (run evs st)) = map tr_innerHTML (tbody st).
Proof. intros evs st H. exact (run_same_preview evs st H). Qed.

Lemma only_upload_changes_preview_witness :
  let evs := [SelectAllClick; TypeMessage "Hi"; SetPersonalize true;
              SendSelectedClick false (Ok send_ok_response); Tick 0;
              Respond 0 (Ok (progress_response "failed" 10 0 3 3));
              DeselectAllClick; ToggleCheckbox 1] in
  previewData (run evs page_0_2_checked) = previewData page_0_2_checked
  /\ previewJobId (run evs page_0_2_checked) = JStr "j1"
  /\ boxes (run evs page_0_2_checked) = [false; true; false].
Proof.
  cbv zeta.
  destruct (only_upload_changes_preview
    [SelectAllClick; TypeMessage "Hi"; SetPersonalize true;
     SendSelectedClick false (Ok send_ok_response); Tick 0;
     Respond 0 (Ok (progress_response "failed" 10 0 3 3));
     DeselectAllClick; ToggleCheckbox 1] page_0_2_checked eq_refl)
    as [Hd [Hj _]].
  split; [exact Hd|]. split; [exact Hj | reflexivity].
Defined.

Lemma table_matches_frame st st' :
  previewData st' = previewData st ->
  map tr_innerHTML (tbody st') = map tr_innerHTML (tbody st) ->
  table_matches st -> table_matches st'.
Proof.
  intros Hd Hm. unfold table_matches. rewrite Hd.
  destruct (previewData st); try (intros H; rewrite H in Hm;
    apply map_eq_nil in Hm; exact Hm).
  now rewrite Hm.
Qed.

Lemma forEach_rows_matches rows : forall idx st,
  exists trs,
    fst (forEach_rows idx rows st) = set_tbody (tbody st ++ trs) st
    /\ markup_matches idx rows (map tr_innerHTML trs).
Proof.
  induction rows as [|r rest IH]; intros idx st.
  - exists []. simpl. rewrite app_nil_r, set_tbody_same. now split.
  - cbn [forEach_rows]. unfold append_row. run_handler.
    destruct (render_row idx r) as [html|e] eqn:Er.
    + run_handler.
      destruct (IH (S idx)
        (set_tbody (tbody st ++ [mkTr html false]) st)) as [trs [E M]].
      exists (mkTr html false :: trs). split.
      * rewrite E. destruct st; simpl. rewrite <- app_assoc. reflexivity.
      * simpl. split; assumption.
    + exists []. simpl. rewrite app_nil_r, set_tbody_same. now split.
Qed.

Lemma populate_table_matches d st :
  previewData st = d -> table_matches (fst (populatePreviewTable d st)).
Proof.
  intros Hd. unfold populatePreviewTable. run_handler.
  destruct d;
    try (unfold table_matches; cbn; rewrite Hd; reflexivity).
  destruct (forEach_rows_matches elems 0
    (set_tbody [] (set_previewArea_display "block" st))) as [trs [E M]].
  rewrite E. unfold table_matches. cbn. rewrite Hd. exact M.
Qed.

Lemma upload_table_matches up pv st :
  table_matches st -> table_matches (step (UploadClick up pv) st).
Proof.
  intros H. unfold step, handler, uploadBtn_click. run_handler.
  repeat (cbv beta iota;
    match goal with
    | |- table_matches (fst (populatePreviewTable _ _)) =>
        apply populate_table_matches; reflexivity
    | |- table_matches _ =>
        apply (table_matches_frame st); [reflexivity | reflexivity | exact H]
    | |- context [match ?x with _ => _ end] => destruct x
    end).
Qed.

Lemma step_table_matches ev st :
  table_matches st -> table_matches (step ev st).
Proof.
  destruct (is_upload ev) eqn:E.
  - destruct ev; try discriminate. apply upload_table_matches.
  - intros H. destruct (step_same_preview ev st E) as [Hd [_ Hm]].
    apply (table_matches_frame st); assumption.
Qed.

Lemma run_table_matches evs : forall st,
  table_matches st -> table_matches (run evs st).
Proof.
  induction evs as [|ev rest IH]; intros st H; simpl; [exact H|].
  apply IH, step_table_matches, H.
Qed.

Lemma markup_matches_nth html : forall idx rows i h,
  markup_matches idx rows html ->
  nth_error html i = Some h ->
  exists r, nth_error rows i = Some r /\ render_row (idx + i) r = Ok h.
Proof.
  induction html as [|x rest IH]; intros idx rows i h M Hn.
  - destruct i; discriminate.
  - destruct rows as [|r rs]; [destruct M|]. destruct M as [Hr M].
    destruct i as [|i]; simpl in Hn.
    + injection Hn as <-. exists r. rewrite Nat.add_0_r. now split.
    + destruct (IH (S idx) rs i h M Hn) as [r' [H1 H2]].
      exists r'. split; [exact H1|]. now rewrite Nat.add_succ_r.
Qed.

(** X10: the table never runs ahead of the preview data.  In every page
    reached from a loaded page with an empty table, by any events, the
    preview data is an array whenever the table has a row, and the row at
    position [i] holds the markup rendered from the preview row at
    position [i]: a checkbox always sits beside the row it selects. *)
Theorem table_rows_show_their_preview_row :
  forall evs fs msg pers d1 d2 w ft t i tr,
    let st := run evs (initial [] fs msg pers d1 d2 w ft t) in
    nth_error (tbody st) i = Some tr ->
    exists rows r,
      previewData st = JArr rows
      /\ nth_error rows i = Some r
      /\ render_row i r = Ok (tr_innerHTML tr).
Proof.
  intros evs fs msg pers d1 d2 w ft t i tr st Hn.
  assert (M : table_matches st).
  { apply run_table_matches. exact I. }
  unfold table_matches in M.
  destruct (previewData st) as [| | | | |rows|] eqn:Hd;
    try (rewrite M in Hn; destruct i; discriminate).
  assert (Hh : nth_error (map tr_innerHTML (tbody st)) i
               = Some (tr_innerHTML tr)).
  { rewrite nth_error_map, Hn. reflexivity. }
  destruct (markup_matches_nth _ 0 rows i _ M Hh) as [r [H1 H2]].
  exists rows, r. repeat split; assumption.
Qed.

Lemma table_rows_show_their_preview_row_witness :
  let st := run [UploadClick (Ok upload_ok_response) (Ok three_row_preview);
                 ToggleCheckbox 2;
                 UploadClick (Ok upload_second_job) (Ok error_page)]
              (initial [] ["contacts.xlsx"] "Hello" false "none" "none"
                 "0%" "0%" EmptyString) in
  nth_error (tbody st) 2 = Some (mkTr (row_markup 2 "Cy" "3") true)
  /\ exists rows r,
       previewData st = JArr rows /\ nth_error rows 2 = Some r
       /\ render_row 2 r = Ok (row_markup 2 "Cy" "3").
Proof.
  cbv zeta. split; [reflexivity|].
  exact (table_rows_show_their_preview_row
    [UploadClick (Ok upload_ok_response) (Ok three_row_preview);
     ToggleCheckbox 2;
     UploadClick (Ok upload_second_job) (Ok error_page)]
    ["contacts.xlsx"] "Hello" false "none" "none" "0%" "0%" EmptyString
    2 (mkTr (row_markup 2 "Cy" "3") true) eq_refl).
Defined.

(** ** Selection *)

Lemma filter_truthy_all_truthy l :
  Forall (fun v => truthy v = true) (filter truthy l).
Proof.
  induction l as [|x l IH]; simpl; [constructor|].
  destruct (truthy x) eqn:E; [constructor|]; assumption.
Qed.

(** X11: in every page reached from the loaded page, by any events,
    [gatherTargetsFromSelection(false)] does not throw and leaves the page
    as it is: it returns an array, and every element of it is truthy. *)
Theorem gather_selected_always_returns_array :
  forall evs rows0 fs msg pers d1 d2 w ft t,
    let st := run evs (initial rows0 fs msg pers d1 d2 w ft t) in
    exists ts,
      gatherTargetsFromSelection false st = (st, Ok (JArr ts))
      /\ Forall (fun v => truthy v = true) ts.
Proof.
  intros evs rows0 fs msg pers d1 d2 w ft t st.
  assert (Hd : truthy (previewData st) = true).
  { apply run_keeps_data. reflexivity. }
  destruct (map_boxes_total (previewData st) (boxes st) 0 Hd)
    as [mapped Hm].
  exists (filter truthy mapped). split.
  - unfold gatherTargetsFromSelection. run_handler. rewrite Hm. reflexivity.
  - apply filter_truthy_all_truthy.
Qed.

Lemma selected_rows_all rows : forall bs : list bool,
  List.length bs = List.length rows ->
  selected_rows rows (map (fun _ => true) bs) = rows.
Proof.
  induction rows as [|r rows IH]; intros [|b bs] H; simpl in *;
    try discriminate; try reflexivity.
  rewrite IH by lia. reflexivity.
Qed.

Lemma boxes_select_all st :
  boxes (step SelectAllClick st) = map (fun _ => true) (boxes st).
Proof.
  unfold boxes, step. simpl. unfold set_all_checked.
  rewrite !map_map. reflexivity.
Qed.

Lemma boxes_deselect_all st :
  boxes (step DeselectAllClick st) = map (fun _ => false) (boxes st).
Proof.
  unfold boxes, step. simpl. unfold set_all_checked.
  rewrite !map_map. reflexivity.
Qed.

(** X12: when the table has one row per preview row, select-all followed
    by [gatherTargetsFromSelection(false)] gives the whole preview, the
    same targets as [gatherTargetsFromSelection(true)]. *)
Theorem select_all_then_gather_selected_is_everything :
  forall st rows,
    previewData st = JArr rows ->
    Forall (fun r => truthy r = true) rows ->
    List.length (tbody st) = List.length rows ->
    snd (gatherTargetsFromSelection false (step SelectAllClick st))
    = Ok (JArr rows)
    /\ snd (gatherTargetsFromSelection false (step SelectAllClick st))
       = snd (gatherTargetsFromSelection true (step SelectAllClick st)).
Proof.
  intros st rows Hd Hall Hlen.
  assert (E : snd (gatherTargetsFromSelection false (step SelectAllClick st))
              = Ok (JArr rows)).
  { rewrite (gather_selected_arr _ rows) by exact Hd.
    cbn [snd]. rewrite (filter_checked_or_null rows Hall).
    rewrite boxes_select_all. cbn [skipn].
    rewrite selected_rows_all; [reflexivity|].
    unfold boxes. now rewrite length_map. }
  split; [exact E|]. rewrite E. cbn. now rewrite Hd.
Qed.

Lemma select_all_then_gather_selected_is_everything_witness :
  snd (gatherTargetsFromSelection false
         (step SelectAllClick page_0_2_checked))
  = Ok (previewData page_0_2_checked).
Proof.
  exact (proj1 (select_all_then_gather_selected_is_everything
    page_0_2_checked
    [JObj [("fullname", JStr "Ann"); ("phone", JStr "1")];
     JObj [("fullname", JStr "Bob"); ("phone", JStr "2")];
     JObj [("fullname", JStr "Cy"); ("phone", JStr "3")]]
    eq_refl ltac:(repeat constructor) eq_refl)).
Defined.

Lemma map_boxes_none_checked data bs : forall i,
  forallb negb bs = true ->
  exists mapped,
    map_boxes data i bs = Ok mapped /\ filter truthy mapped = [].
Proof.
  induction bs as [|b rest IH]; intros i H; simpl in *; [eauto|].
  apply andb_prop in H. destruct H as [Hb Hrest].
  destruct b; [discriminate|].
  destruct (IH (S i) Hrest) as [xs [E F]].
  rewrite E. simpl. eauto.
Qed.

Lemma forallb_negb_all_false (bs : list bool) :
  forallb negb (map (fun _ => false) bs) = true.
Proof. induction bs; simpl; auto. Qed.

(** X13: after deselect-all the resolved selection is empty, whatever the
    preview data is, so a send-selected click then begins with the
    send-to-all question. *)
Theorem deselect_all_then_send_selected_asks :
  forall st answer send,
    snd (gatherTargetsFromSelection false (step DeselectAllClick st))
    = Ok (JArr [])
    /\ exists more,
         dialogs (step (SendSelectedClick answer send)
                    (step DeselectAllClick st))
         = (dialogs st ++ send_all_question :: more)%list.
Proof.
  intros st answer send.
  destruct (map_boxes_none_checked
              (previewData (step DeselectAllClick st))
              (boxes (step DeselectAllClick st)) 0) as [mapped [Hm Hf]].
  { rewrite boxes_deselect_all. apply forallb_negb_all_false. }
  split.
  - rewrite gather_selected_snd, Hm. simpl. now rewrite Hf.
  - unfold step at 1. unfold handler.
    rewrite sendSelected_cases, Hm, Hf. cbv zeta.
    destruct answer.
    + destruct (startSend_dialogs
        (previewData (step DeselectAllClick st))
        (personalizeToggle (step DeselectAllClick st)) send
        (set_dialogs (dialogs (step DeselectAllClick st)
                      ++ [send_all_question]) (step DeselectAllClick st)))
        as [more Hmore].
      exists more. rewrite Hmore. cbn. rewrite <- app_assoc. reflexivity.
    + exists []. reflexivity.
Qed.

(** ** Sending *)

Lemma selected_nonempty_cases st rows answer send t ts :
  previewData st = JArr rows ->
  filter truthy (checked_or_null rows 0 (boxes st)) = t :: ts ->
  sendSelectedBtn_click answer send st
  = startSend (JArr (t :: ts)) (personalizeToggle st) send st.
Proof.
  intros Hd Hf. rewrite sendSelected_cases, Hd, map_boxes_arr, Hf.
  reflexivity.
Qed.

(** X14: with rows checked, send-selected asks nothing and goes straight
    to [startSend] with exactly the checked rows, in order; with a
    message, its one request carries the message, the personalize flag as
    it is at the click, and those rows. *)
Theorem send_selected_sends_the_checked_rows :
  forall st rows answer send,
    previewData st = JArr rows ->
    Forall (fun r => truthy r = true) rows ->
    selected_rows rows (boxes st) <> [] ->
    step (SendSelectedClick answer send) st
    = fst (startSend (JArr (selected_rows rows (boxes st)))
             (personalizeToggle st) send st)
    /\ (messageBox st <> EmptyString ->
        requests (step (SendSelectedClick answer send) st)
        = (requests st
           ++ [ReqSend (mkSendBody (messageBox st) (personalizeToggle st)
                          (JArr (selected_rows rows (boxes st))))])%list).
Proof.
  intros st rows answer send Hd Hall Hne.
  pose proof (filter_checked_or_null rows Hall (boxes st) 0) as Hf.
  cbn [skipn] in Hf.
  destruct (selected_rows rows (boxes st)) as [|t ts] eqn:Hs;
    [contradiction|].
  assert (E : step (SendSelectedClick answer send) st
              = fst (startSend (JArr (t :: ts)) (personalizeToggle st)
                       send st)).
  { unfold step, handler.
    now rewrite (selected_nonempty_cases st rows answer send t ts Hd Hf). }
  split; [exact E|].
  intros Hm. rewrite E. apply startSend_requests, Hm.
Qed.

Lemma send_selected_sends_the_checked_rows_witness :
  requests (step (SendSelectedClick false (Ok send_ok_response))
              (step (SetPersonalize true) page_0_2_checked))
  = (requests page_0_2_checked
     ++ [ReqSend (mkSendBody "Hello" true
           (JArr [JObj [("fullname", JStr "Ann"); ("phone", JStr "1")];
                  JObj [("fullname", JStr "Cy"); ("phone", JStr "3")]]))])%list.
Proof.
  refine (proj2 (send_selected_sends_the_checked_rows
    (step (SetPersonalize true) page_0_2_checked)
    [JObj [("fullname", JStr "Ann"); ("phone", JStr "1")];
     JObj [("fullname", JStr "Bob"); ("phone", JStr "2")];
     JObj [("fullname", JStr "Cy"); ("phone", JStr "3")]]
    false (Ok send_ok_response) eq_refl ltac:(repeat constructor) _) _);
    discriminate.
Defined.

Lemma startSend_shape targets pers send st :
  messageBox st <> EmptyString ->
  startSend targets pers send st =
  let sent :=
    set_requests
      (requests st ++ [ReqSend (mkSendBody (messageBox st) pers targets)])
      st in
  match send with
  | Throw e => (sent, Throw e)
  | Ok r =>
      match json r with
      | Throw e => (sent, Throw e)
      | Ok j =>
          if ok r then
            match get_prop j "send_job_id" with
            | Throw e => (sent, Throw e)
            | Ok id =>
                (set_timers (timers st ++ [mkTimer id true 0])
                   (set_progressContainer_display "block" sent), Ok tt)
            end
          else
            match get_prop j "error" with
            | Throw e => (sent, Throw e)
            | Ok err =>
                match str_plus "Send error: " (js_or err (JStr "unknown"))
                with
                | Throw e => (sent, Throw e)
                | Ok msg =>
                    (set_dialogs (dialogs st ++ [Alert msg]) sent, Ok tt)
                end
            end
      end
  end.
Proof.
  intros H. unfold startSend, pollProgress. run_handler.
  destruct (messageBox st =? EmptyString) eqn:E.
  - apply String.eqb_eq in E. contradiction.
  - destruct send as [r|e]; [|reflexivity].
    destruct (json r) as [j|e]; [|reflexivity].
    destruct (ok r); cbn [negb].
    + destruct (get_prop j "send_job_id"); reflexivity.
    + destruct (get_prop j "error") as [err|e]; [|reflexivity].
      cbv beta iota.
      destruct (str_plus "Send error: " (js_or err (JStr "unknown")));
        reflexivity.
Qed.

(** X15: a send that the backend refuses never starts polling.  Whatever
    the body of the non-success response, and also when the fetch itself
    rejects, no interval is created and the progress area is not
    revealed; when the body is a JSON object the alert shows the error
    field if it is a non-empty string, and the label unknown if the field
    is absent or falsy. *)
Theorem refused_send_starts_no_polling :
  forall st targets pers,
    messageBox st <> EmptyString ->
    let sent :=
      set_requests
        (requests st ++ [ReqSend (mkSendBody (messageBox st) pers targets)])
        st in
    (forall e, startSend targets pers (Throw e) st = (sent, Throw e))
    /\ (forall r,
          ok r = false ->
          timers (fst (startSend targets pers (Ok r) st)) = timers st
          /\ progressContainer_display
               (fst (startSend targets pers (Ok r) st))
             = progressContainer_display st)
    /\ (forall r props s,
          ok r = false -> json r = Ok (JObj props) ->
          lookup "error" props = Some (JStr s) -> s <> EmptyString ->
          startSend targets pers (Ok r) st
          = (set_dialogs (dialogs st ++ [Alert ("Send error: " ++ s)]) sent,
             Ok tt))
    /\ (forall r props,
          ok r = false -> json r = Ok (JObj props) ->
          truthy (field "error" (JObj props)) = false ->
          startSend targets pers (Ok r) st
          = (set_dialogs (dialogs st ++ [Alert "Send error: unknown"]) sent,
             Ok tt)).
Proof.
  intros st targets pers Hm. cbv zeta.
  split; [|split; [|split]].
  - intros e. now rewrite startSend_shape.
  - intros r Hok. rewrite startSend_shape by exact Hm. cbv zeta.
    rewrite Hok. destruct (json r) as [j|e]; [|split; reflexivity].
    destruct (get_prop j "error") as [err|e]; [|split; reflexivity].
    destruct (str_plus "Send error: " (js_or err (JStr "unknown")));
      split; reflexivity.
  - intros r props s Hok Hj He Hs. rewrite startSend_shape by exact Hm.
    cbv zeta. rewrite Hj, Hok. cbn [get_prop]. rewrite He.
    unfold js_or. cbn [truthy].
    destruct (s =? EmptyString) eqn:Es; [|reflexivity].
    apply String.eqb_eq in Es. contradiction.
  - intros r props Hok Hj He. rewrite startSend_shape by exact Hm.
    cbv zeta. rewrite Hj, Hok, get_prop_obj. unfold js_or. rewrite He.
    reflexivity.
Qed.

Lemma refused_send_starts_no_polling_witness :
  let st' := step (SendAllClick (Ok send_refused)) page_none_checked in
  dialogs st' = [Alert "Send error: No targets"]
  /\ timers st' = []
  /\ progressContainer_display st' = "none".
Proof.
  cbv zeta. unfold step, handler. rewrite sendAll_eq.
  destruct (refused_send_starts_no_polling page_none_checked
    (previewData page_none_checked) (personalizeToggle page_none_checked))
    as [_ [_ [H _]]]; [discriminate|].
  rewrite (H send_refused [("error", JStr "No targets")] "No targets"
             eq_refl eq_refl eq_refl); [|discriminate].
  repeat split.
Defined.

(** X16: an accepted send reveals the progress area and registers exactly
    one new interval, active, for the value of [send_job_id], after
    issuing its single request; no progress request is made before the
    first tick.  A response without [send_job_id] registers the interval
    for [undefined] all the same. *)
Theorem accepted_send_starts_one_interval :
  forall st targets pers r j id,
    messageBox st <> EmptyString ->
    ok r = true -> json r = Ok j ->
    get_prop j "send_job_id" = Ok id ->
    startSend targets pers (Ok r) st
    = (set_timers (timers st ++ [mkTimer id true 0])
         (set_progressContainer_display "block"
            (set_requests
               (requests st
                  ++ [ReqSend (mkSendBody (messageBox st) pers targets)])
               st)),
       Ok tt).
Proof.
  intros st targets pers r j id Hm Hok Hj Hid.
  rewrite startSend_shape by exact Hm. cbv zeta.
  now rewrite Hj, Hok, Hid.
Qed.

Lemma accepted_send_starts_one_interval_witness :
  let st' := step (SendAllClick (Ok send_ok_without_id)) page_none_checked in
  timers st' = [mkTimer JUndefined true 0]
  /\ progressContainer_display st' = "block"
  /\ progress_requests 0 st' = []
  /\ progress_requests 0 (step (Tick 0) st')
     = [ReqProgress 0 "/progress/undefined"].
Proof.
  cbv zeta. unfold step at 1 2 3 4. unfold handler. rewrite sendAll_eq.
  rewrite (accepted_send_starts_one_interval page_none_checked
    (previewData page_none_checked) (personalizeToggle page_none_checked)
    send_ok_without_id (JObj []) JUndefined); try reflexivity;
    [|discriminate].
  repeat split.
Defined.

(** ** Polling *)

Lemma tick_active id st t u :
  nth_error (timers st) id = Some t ->
  timer_active t = true ->
  ToString (timer_job t) = Ok u ->
  step (Tick id) st
  = set_timers
      (update_nth id
         (fun t => mkTimer (timer_job t) (timer_active t)
                     (S (timer_inflight t)))
         (timers st))
      (set_requests (requests st ++ [ReqProgress id ("/progress/" ++ u)]) st).
Proof.
  intros Ht Ha Hu. unfold step, handler, tick. run_handler.
  rewrite Ht, Ha. unfold str_plus. rewrite Hu. reflexivity.
Qed.

Lemma nth_error_update_same {A} (f : A -> A) (l : list A) i x :
  nth_error l i = Some x -> nth_error (update_nth i f l) i = Some (f x).
Proof.
  intros H. rewrite nth_error_update_nth, Nat.eqb_refl, H. reflexivity.
Qed.

(** X17: ticks do not wait for responses.  While the interval is active,
    each tick issues one request to [/progress/] followed by the job id,
    whether or not earlier ones have been answered: after [n] ticks
    without a response there are [n] more requests and [n] more callbacks
    waiting. *)
Theorem ticks_pile_up_requests :
  forall n st id t u,
    nth_error (timers st) id = Some t ->
    timer_active t = true ->
    ToString (timer_job t) = Ok u ->
    let st' := run (repeat (Tick id) n) st in
    progress_requests id st'
    = (progress_requests id st
       ++ repeat (ReqProgress id ("/progress/" ++ u)) n)%list
    /\ nth_error (timers st') id
       = Some (mkTimer (timer_job t) true (timer_inflight t + n)).
Proof.
  induction n as [|n IH]; intros st id t u Ht Ha Hu; cbv zeta.
  - simpl. rewrite app_nil_r, Nat.add_0_r, Ht. split; [reflexivity|].
    destruct t; simpl in *. now rewrite Ha.
  - cbn [repeat run fold_left].
    change (fold_left (fun s ev => step ev s) (repeat (Tick id) n)
              (step (Tick id) st))
      with (run (repeat (Tick id) n) (step (Tick id) st)).
    pose proof (tick_active id st t u Ht Ha Hu) as E.
    assert (Ht1 : nth_error (timers (step (Tick id) st)) id
                  = Some (mkTimer (timer_job t) (timer_active t)
                            (S (timer_inflight t)))).
    { rewrite E. cbn [timers set_timers set_requests].
      rewrite (nth_error_update_same _ _ _ _ Ht). reflexivity. }
    destruct (IH (step (Tick id) st) id _ u Ht1 Ha Hu) as [Hr Hn].
    cbn [timer_job timer_inflight] in Hn.
    split.
    + rewrite Hr. rewrite E at 1. unfold progress_requests.
      cbn [requests set_timers set_requests].
      rewrite filter_app. cbn [filter is_progress_of].
      rewrite Nat.eqb_refl, <- app_assoc. reflexivity.
    + rewrite Hn. now rewrite Nat.add_succ_r.
Qed.

Lemma ticks_pile_up_requests_witness :
  progress_requests 0 (run (repeat (Tick 0) 3) page_sending)
  = [ReqProgress 0 "/progress/s1"; ReqProgress 0 "/progress/s1";
     ReqProgress 0 "/progress/s1"]
  /\ nth_error (timers (run (repeat (Tick 0) 3) page_sending)) 0
     = Some (mkTimer (JStr "s1") true 3).
Proof.
  exact (ticks_pile_up_requests 3 page_sending 0 (mkTimer (JStr "s1") true 0)
           "s1" eq_refl eq_refl eq_refl).
Defined.

Lemma respond_waiting id outcome st t n :
  nth_error (timers st) id = Some t ->
  timer_inflight t = S n ->
  respond id outcome st
  = progress_callback id outcome
      (set_timers
         (update_nth id
            (fun t => mkTimer (timer_job t) (timer_active t) n)
            (timers st)) st).
Proof.
  intros Ht Hn. unfold respond. run_handler. rewrite Ht, Hn. reflexivity.
Qed.

(** X18: a successful response that carries a progress state whose status
    is neither completed nor failed only refreshes the display: the bar
    and its label show the percent, the text shows status, sent, total
    and failed, and the interval is left as it was, so an active one goes
    on polling and a cleared one stays cleared; a response that arrives
    after the interval was cleared thus still overwrites the display. *)
Theorem nonterminal_progress_response_only_refreshes :
  forall st id r j,
    waiting id st = true ->
    ok r = true -> json r = Ok j ->
    is_progress_state j = true ->
    is_terminal j = false ->
    let st' := step (Respond id (Ok r)) st in
    exists p s1 s2 s3 s4,
      ToString (field "percent" j) = Ok p
      /\ ToString (field "status" j) = Ok s1
      /\ ToString (field "sent" j) = Ok s2
      /\ ToString (field "total" j) = Ok s3
      /\ ToString (field "failed" j) = Ok s4
      /\ progressFill_width st' = p ++ "%"
      /\ progressFill_text st' = p ++ "%"
      /\ progressText st'
         = "Status: " ++ s1 ++ " " ++ emdash ++ " Sent: " ++ s2 ++ " / "
             ++ s3 ++ " " ++ emdash ++ " Failed: " ++ s4
      /\ cleared id st' = cleared id st
      /\ requests st' = requests st
      /\ dialogs st' = dialogs st.
Proof.
  intros st id r j Hw Hok Hj Hps Hterm. cbv zeta.
  destruct (waiting_inv _ _ Hw) as [t [n [Ht Hn]]].
  destruct j as [| | | | | |props]; try discriminate.
  unfold is_progress_state in Hps.
  repeat (apply andb_prop in Hps; destruct Hps as [Hps ?]).
  destruct (plain_ToString _ Hps) as [p Hp].
  destruct (plain_ToString (field "status" (JObj props))) as [s1 Hs1];
    [assumption|].
  destruct (plain_ToString (field "sent" (JObj props))) as [s2 Hs2];
    [assumption|].
  destruct (plain_ToString (field "total" (JObj props))) as [s3 Hs3];
    [assumption|].
  destruct (plain_ToString (field "failed" (JObj props))) as [s4 Hs4];
    [assumption|].
  unfold is_terminal in Hterm. apply orb_false_elim in Hterm.
  destruct Hterm as [Hc Hf].
  assert (E : step (Respond id (Ok r)) st =
    set_progressText
      ("Status: " ++ s1 ++ " " ++ emdash ++ " Sent: " ++ s2 ++ " / " ++ s3
         ++ " " ++ emdash ++ " Failed: " ++ s4)
      (set_progressFill_text (p ++ "%")
         (set_progressFill_width (p ++ "%")
            (set_timers
               (update_nth id
                  (fun t => mkTimer (timer_job t) (timer_active t) n)
                  (timers st)) st)))).
  { unfold step, handler. rewrite (respond_waiting id _ st t n Ht Hn).
    unfold progress_callback. run_handler. rewrite Hj, Hok.
    cbn [negb]. cbv beta iota. rewrite !get_prop_obj. cbv beta iota.
    unfold plus_str. rewrite Hp, Hs1, Hs2, Hs3, Hs4.
    cbn [res_bind]. cbv beta iota. rewrite Hc, Hf. reflexivity. }
  exists p, s1, s2, s3, s4. rewrite E.
  repeat (split; [first [assumption | reflexivity]|]).
  split; [|split; reflexivity].
  unfold cleared. cbn [timers set_timers set_progressText
    set_progressFill_text set_progressFill_width].
  rewrite (nth_error_update_same _ _ _ _ Ht), Ht. reflexivity.
Qed.

Lemma nonterminal_progress_response_only_refreshes_witness :
  let late :=
    step (Respond 0 (Ok (progress_response "running" 40 1 0 3)))
      (run [Tick 0; Tick 0;
            Respond 0 (Ok (progress_response "completed" 100 3 0 3))]
         page_sending) in
  cleared 0 late = true /\ progressFill_text late = "40%".
Proof.
  cbv zeta.
  destruct (nonterminal_progress_response_only_refreshes
    (run [Tick 0; Tick 0;
          Respond 0 (Ok (progress_response "completed" 100 3 0 3))]
       page_sending) 0 (progress_response "running" 40 1 0 3) _
    eq_refl eq_refl eq_refl eq_refl eq_refl)
    as (p & s1 & s2 & s3 & s4 & Hp & _ & _ & _ & _ & _ & Ht & _ & Hc & _).
  injection Hp as <-. split; [rewrite Hc; reflexivity | exact Ht].
Defined.

(** X19: a progress callback whose fetch rejects, or whose response body
    is not JSON, ends there with the exception: nothing on the page
    changes, the interval is neither cleared nor restarted, and only the
    count of waiting callbacks goes down by one. *)
Theorem unreadable_progress_response_changes_nothing :
  forall st id outcome e t n,
    nth_error (timers st) id = Some t ->
    timer_inflight t = S n ->
    res_bind outcome json = Throw e ->
    respond id outcome st
    = (set_timers
         (update_nth id
            (fun t => mkTimer (timer_job t) (timer_active t) n)
            (timers st)) st,
       Throw e).
Proof.
  intros st id outcome e t n Ht Hn Ho.
  rewrite (respond_waiting id outcome st t n Ht Hn).
  unfold progress_callback. run_handler.
  destruct outcome as [r|e']; cbn [res_bind] in Ho.
  - rewrite Ho. reflexivity.
  - injection Ho as <-. reflexivity.
Qed.

Lemma unreadable_progress_response_changes_nothing_witness :
  respond 0 (Throw NetworkError) page_polling
  = (set_timers [mkTimer (JStr "s1") true 0] page_polling,
     Throw NetworkError)
  /\ progressText (step (Respond 0 (Throw NetworkError)) page_polling)
     = EmptyString.
Proof.
  split; [|reflexivity].
  exact (unreadable_progress_response_changes_nothing page_polling 0
           (Throw NetworkError) NetworkError (mkTimer (JStr "s1") true 1) 0
           eq_refl eq_refl eq_refl).
Defined.

(** ** What an event leaves alone *)

Lemma forEach_rows_stable (R : State -> State -> Prop) :
  (forall st, R st st) ->
  (forall a b c, R a b -> R b c -> R a c) ->
  (forall st trs, R st (set_tbody trs st)) ->
  forall rows idx, stable R (forEach_rows idx rows).
Proof.
  intros Hrefl Htrans Hleaf.
  induction rows as [|r rest IH]; intros idx; simpl.
  - apply stable_ret, Hrefl.
  - unfold append_row.
    apply stable_bind; [exact Htrans | | intros ?; apply IH].
    apply stable_bind; [exact Htrans | apply stable_lift, Hrefl | intros ?].
    apply stable_modify. intros st. apply Hleaf.
Qed.

Lemma same_controls_refl st : same_controls st st.
Proof. repeat split. Qed.

Lemma same_controls_trans a b c :
  same_controls a b -> same_controls b c -> same_controls a c.
Proof.
  unfold same_controls. intros H1 H2.
  decompose [and] H1. decompose [and] H2. repeat split; congruence.
Qed.

Lemma same_progress_refl st : same_progress st st.
Proof. repeat split. Qed.

Lemma same_progress_trans a b c :
  same_progress a b -> same_progress b c -> same_progress a c.
Proof.
  unfold same_progress. intros H1 H2.
  decompose [and] H1. decompose [and] H2. repeat split; congruence.
Qed.

Ltac same_controls_step :=
  stable_step same_controls_refl same_controls_trans
    ltac:(repeat split; reflexivity).

Ltac same_progress_step :=
  stable_step same_progress_refl same_progress_trans
    ltac:(repeat split; reflexivity).

Lemma step_same_controls ev st :
  is_poll ev = true -> same_controls st (step ev st).
Proof.
  intros Hev. unfold step. revert st.
  change (stable same_controls (handler ev)).
  destruct ev; try discriminate; simpl; unfold_handlers;
    repeat same_controls_step.
Qed.

Lemma step_same_progress ev st :
  is_send ev = false -> is_poll ev = false ->
  same_progress st (step ev st).
Proof.
  intros Hs Hp. unfold step. revert st.
  change (stable same_progress (handler ev)).
  destruct ev; try discriminate; simpl; unfold_handlers;
    repeat first
      [ apply (forEach_rows_stable same_progress same_progress_refl
                 same_progress_trans); intros; repeat split; reflexivity
      | same_progress_step ].
Qed.

(** X20: polling is silent.  Through any sequence of ticks and progress
    responses, whatever the responses are, no dialog is shown and the
    table, its checkboxes, the message, the personalize toggle, the file
    selection and the preview data stay as they were: polling writes to
    the progress area only. *)
Theorem polling_touches_only_the_progress_area :
  forall evs st,
    forallb is_poll evs = true ->
    dialogs (run evs st) = dialogs st
    /\ tbody (run evs st) = tbody st
    /\ messageBox (run evs st) = messageBox st
    /\ personalizeToggle (run evs st) = personalizeToggle st
    /\ files (run evs st) = files st
    /\ previewData (run evs st) = previewData st.
Proof.
  induction evs as [|ev rest IH]; intros st H; simpl in *.
  - repeat split.
  - apply andb_prop in H. destruct H as [Hev Hrest].
    destruct (IH (step ev st) Hrest) as (H1 & H2 & H3 & H4 & H5 & H6).
    destruct (step_same_controls ev st Hev) as (G1 & G2 & G3 & G4 & G5 & _).
    assert (G6 : previewData (step ev st) = previewData st).
    { apply step_same_preview. destruct ev; try discriminate; reflexivity. }
    change (fold_left (fun s ev0 => step ev0 s) rest (step ev st))
      with (run rest (step ev st)).
    repeat split; congruence.
Qed.

Lemma polling_touches_only_the_progress_area_witness :
  let evs := [Tick 0; Respond 0 (Ok error_page); Tick 0;
              Respond 0 (Ok progress_refused); Tick 0] in
  dialogs (run evs page_sending) = []
  /\ tbody (run evs page_sending) = tbody page_sending
  /\ progressText (run evs page_sending) = "Error fetching progress".
Proof.
  cbv zeta.
  destruct (polling_touches_only_the_progress_area
    [Tick 0; Respond 0 (Ok error_page); Tick 0;
     Respond 0 (Ok progress_refused); Tick 0] page_sending eq_refl)
    as (Hd & Ht & _).
  split; [exact Hd|]. split; [exact Ht | reflexivity].
Defined.

(** X21: a running poll is not disturbed by the rest of the page.
    Through any sequence of events that are neither send clicks nor ticks
    nor progress responses (choosing files, typing, selecting, uploading
    with any outcome), the intervals and the whole progress area stay as
    they were. *)
Theorem only_sending_and_polling_touch_progress :
  forall evs st,
    forallb (fun ev => negb (is_send ev) && negb (is_poll ev)) evs = true ->
    timers (run evs st) = timers st
    /\ progressContainer_display (run evs st) = progressContainer_display st
    /\ progressFill_width (run evs st) = progressFill_width st
    /\ progressFill_text (run evs st) = progressFill_text st
    /\ progressText (run evs st) = progressText st.
Proof.
  induction evs as [|ev rest IH]; intros st H; simpl in *.
  - repeat split.
  - apply andb_prop in H. destruct H as [Hev Hrest].
    apply andb_prop in Hev. destruct Hev as [Hs Hp].
    apply negb_true_iff in Hs. apply negb_true_iff in Hp.
    destruct (IH (step ev st) Hrest) as (H1 & H2 & H3 & H4 & H5).
    destruct (step_same_progress ev st Hs Hp) as (G1 & G2 & G3 & G4 & G5).
    change (fold_left (fun s ev0 => step ev0 s) rest (step ev st))
      with (run rest (step ev st)).
    repeat split; congruence.
Qed.

Lemma only_sending_and_polling_touch_progress_witness :
  let evs := [UploadClick (Ok upload_second_job) (Ok two_row_preview);
              SelectAllClick; TypeMessage "again";
              UploadClick (Ok upload_refused) (Throw NetworkError)] in
  timers (run evs page_polling) = [mkTimer (JStr "s1") true 1]
  /\ progressContainer_display (run evs page_polling) = "block"
  /\ List.length (tbody (run evs page_polling)) = 2.
Proof.
  cbv zeta.
  destruct (only_sending_and_polling_touch_progress
    [UploadClick (Ok upload_second_job) (Ok two_row_preview);
     SelectAllClick; TypeMessage "again";
     UploadClick (Ok upload_refused) (Throw NetworkError)]
    page_polling eq_refl) as (Ht & Hc & _).
  split; [exact Ht|]. split; [exact Hc | reflexivity].
Defined.

Lemma startSend_ignores_table targets pers send trs st :
  startSend targets pers send (set_tbody trs st)
  = (set_tbody trs (fst (startSend targets pers send st)),
     snd (startSend targets pers send st)).
Proof.
  destruct (messageBox st =? EmptyString) eqn:E.
  - apply String.eqb_eq in E.
    rewrite !startSend_empty_message by exact E. reflexivity.
  - assert (Hm : messageBox st <> EmptyString).
    { intros H. rewrite H in E. discriminate. }
    rewrite !startSend_shape by exact Hm. cbv zeta.
    destruct send as [r|e]; [|reflexivity].
    destruct (json r) as [j|e]; [|reflexivity].
    destruct (ok r).
    + destruct (get_prop j "send_job_id"); reflexivity.
    + destruct (get_prop j "error") as [err|e]; [|reflexivity].
      destruct (str_plus "Send error: " (js_or err (JStr "unknown")));
        reflexivity.
Qed.

(** X22: with a table of one row per preview row and at least one row,
    select-all followed by send-selected does what send-all does: the
    same request, the same dialogs, the same intervals, and no question
    asked. *)
Theorem select_all_then_send_selected_is_send_all :
  forall st rows answer send,
    previewData st = JArr rows ->
    Forall (fun r => truthy r = true) rows ->
    List.length (tbody st) = List.length rows ->
    rows <> [] ->
    let st1 := step (SendSelectedClick answer send) (step SelectAllClick st) in
    let st2 := step (SendAllClick send) st in
    requests st1 = requests st2
    /\ dialogs st1 = dialogs st2
    /\ timers st1 = timers st2
    /\ progressContainer_display st1 = progressContainer_display st2.
Proof.
  intros st rows answer send Hd Hall Hlen Hne. cbv zeta.
  assert (Hf : filter truthy
                 (checked_or_null rows 0 (boxes (step SelectAllClick st)))
               = rows).
  { rewrite (filter_checked_or_null rows Hall). cbn [skipn].
    rewrite boxes_select_all. apply selected_rows_all.
    unfold boxes. now rewrite length_map. }
  destruct rows as [|r rows']; [contradiction|].
  assert (E : step (SendSelectedClick answer send) (step SelectAllClick st)
              = set_tbody (set_all_checked true (tbody st))
                  (step (SendAllClick send) st)).
  { unfold step at 1 3. unfold handler.
    rewrite (selected_nonempty_cases (step SelectAllClick st) (r :: rows')
               answer send r rows' Hd Hf).
    rewrite sendAll_eq, Hd.
    change (step SelectAllClick st)
      with (set_tbody (set_all_checked true (tbody st)) st).
    rewrite startSend_ignores_table. reflexivity. }
  rewrite E. repeat split.
Qed.

Lemma select_all_then_send_selected_is_send_all_witness :
  requests (step (SendSelectedClick false (Ok send_ok_response))
              (step SelectAllClick page_0_2_checked))
  = requests (step (SendAllClick (Ok send_ok_response)) page_0_2_checked).
Proof.
  refine (proj1 (select_all_then_send_selected_is_send_all page_0_2_checked
    [JObj [("fullname", JStr "Ann"); ("phone", JStr "1")];
     JObj [("fullname", JStr "Bob"); ("phone", JStr "2")];
     JObj [("fullname", JStr "Cy"); ("phone", JStr "3")]]
    false (Ok send_ok_response) eq_refl ltac:(repeat constructor) eq_refl
    _)).
  discriminate.
Defined.

(** ** A new upload replaces the preview and the selection *)

Lemma rendered_rows_unchecked rows : forall idx,
  forallb negb (map cb_checked (rendered_rows idx rows)) = true.
Proof. induction rows as [|r rows IH]; intros idx; simpl; auto. Qed.

(** X23: a successful upload starts afresh.  It issues exactly the upload
    request and the preview request for the returned job id, stores that
    id and the new rows, and every checkbox of the new table is
    unchecked: whatever was selected before, the resolved selection is
    now empty while send-all addresses all the new rows. *)
Theorem successful_upload_resets_the_selection :
  forall st file fs up pv j id u prev rows,
    files st = file :: fs ->
    ok up = true -> json up = Ok j ->
    get_prop j "job_id" = Ok id -> ToString id = Ok u ->
    json pv = Ok prev ->
    get_prop prev "preview" = Ok (JArr rows) ->
    Forall (fun r => is_preview_row r = true) rows ->
    let st' := step (UploadClick (Ok up) (Ok pv)) st in
    previewJobId st' = id
    /\ requests st'
       = (requests st ++ [ReqUpload file; ReqPreview ("/preview/" ++ u)])%list
    /\ forallb negb (boxes st') = true
    /\ snd (gatherTargetsFromSelection false st') = Ok (JArr [])
    /\ snd (gatherTargetsFromSelection true st') = Ok (JArr rows).
Proof.
  intros st file fs up pv j id u prev rows Hf Hok Hj Hid Hu Hpv Hp Hall.
  cbv zeta.
  assert (E : step (UploadClick (Ok up) (Ok pv)) st
    = set_tbody (rendered_rows 0 rows)
        (set_previewArea_display "block"
           (set_previewData (JArr rows)
              (set_requests
                 (requests st
                    ++ [ReqUpload file; ReqPreview ("/preview/" ++ u)])
                 (set_previewJobId id st))))).
  { unfold step, handler.
    rewrite (upload_ok_shape st file fs up (Ok pv) j id u Hf Hok Hj Hid Hu).
    cbv zeta. cbn [res_bind]. rewrite Hpv. cbn [res_bind]. rewrite Hp.
    cbn [js_or truthy].
    rewrite (populatePreviewTable_preview rows _ Hall). reflexivity. }
  rewrite E.
  assert (Hb : forallb negb
                 (boxes (set_tbody (rendered_rows 0 rows)
                   (set_previewArea_display "block"
                     (set_previewData (JArr rows)
                       (set_requests
                         (requests st
                            ++ [ReqUpload file;
                                ReqPreview ("/preview/" ++ u)])
                         (set_previewJobId id st)))))) = true).
  { unfold boxes. cbn [tbody set_tbody]. apply rendered_rows_unchecked. }
  split; [reflexivity|]. split; [reflexivity|]. split; [exact Hb|].
  split; [|reflexivity].
  rewrite gather_selected_snd.
  destruct (map_boxes_none_checked (JArr rows) _ 0 Hb) as [mapped [Hm Hfl]].
  cbn [previewData set_tbody set_previewArea_display set_previewData].
  rewrite Hm. cbn [res_bind]. now rewrite Hfl.
Qed.

Lemma successful_upload_resets_the_selection_witness :
  let st' := step (UploadClick (Ok upload_second_job) (Ok two_row_preview))
               page_0_2_checked in
  boxes page_0_2_checked = [true; false; true]
  /\ boxes st' = [false; false]
  /\ previewJobId st' = JStr "j2"
  /\ snd (gatherTargetsFromSelection false st') = Ok (JArr []).
Proof.
  cbv zeta.
  destruct (successful_upload_resets_the_selection page_0_2_checked
    "contacts.xlsx" [] upload_second_job two_row_preview
    (JObj [("job_id", JStr "j2")]) (JStr "j2") "j2"
    (JObj [("preview",
       JArr [JObj [("fullname", JStr "<script>"); ("phone", JStr "555")];
             JObj [("fullname", JStr "A&B"); ("phone", JNum 7)]])])
    [JObj [("fullname", JStr "<script>"); ("phone", JStr "555")];
     JObj [("fullname", JStr "A&B"); ("phone", JNum 7)]]
    eq_refl eq_refl eq_refl eq_refl eq_refl eq_refl eq_refl
    ltac:(repeat constructor)) as (Hj & _ & _ & Hg & _).
  split; [reflexivity|]. split; [reflexivity|].
  split; [exact Hj | exact Hg].
Defined.
